(** * Response validation and version-range resolution of [agent/__init__.py]

    The module asks a language model for a Package URL or for affected and
    fixed version constraints, validates the reply against a pydantic schema
    ([Purl], [Versions]) and hands the strings to [packageurl] and [univers].

    The collaborators that live outside the module (the model endpoint,
    [PackageURL.from_string], the [RANGE_CLASS_BY_SCHEMES] registry and the
    process environment) are the fields of the class [Collaborators]; every
    result below holds for any implementation of them.  Python exceptions are
    values of [exception]; a computation that may raise has type [result A],
    and a method, which also receives [self], has type [method S A].  An
    agent run follows pydantic_ai: a reply that fails the output schema is
    answered with one retry request before the run gives up. *)

From Stdlib Require Import ZArith.
From stdpp Require Import base option list gmap strings.

Set Warnings "-register-all".

(** ** Exceptions *)

(** A position inside the validated input, as pydantic reports it in [loc]. *)
Inductive LocItem :=
| Field (name : string)
| Index (i : nat).

(** The pydantic error types that the two schemas can produce. *)
Inductive ErrorType :=
| missing
| string_type
| list_type
| model_type
| value_error (msg : string).

Record ErrorDetails := { loc : list LocItem; type : ErrorType }.

(** An exception raised inside a collaborator: its class name and [str(e)]. *)
Record Raised := { exc_type : string; exc_str : string }.

(** The exceptions that the module can end with.  [External] carries what a
    collaborator raised; [UnexpectedModelBehavior n] is what a pydantic_ai
    agent raises when its [n] retries for output validation are used up. *)
Inductive exception :=
| KeyError (key : string)
| ValueError (msg : string)
| ValidationError (title : string) (errors : list ErrorDetails)
| External (e : Raised)
| UnexpectedModelBehavior (max_retries : nat).

Definition result : Type → Type := sum exception.

#[global] Instance result_ret : MRet result := λ A x, inr x.
#[global] Instance result_bind : MBind result :=
  λ A B f m, match m with inl e => inl e | inr a => f a end.

Definition raise {A} (e : exception) : result A := inl e.

(** A call into a collaborator; what it raises propagates unchanged. *)
Definition extern {A} (r : Raised + A) : result A :=
  match r with inl e => inl (External e) | inr a => inr a end.

(** [d[k]] on a dict. *)
Definition getitem {V} (d : gmap string V) (k : string) : result V :=
  match d !! k with
  | Some v => mret v
  | None => raise (KeyError k)
  end.

(** [[f(x) for x in xs]]: elements are evaluated left to right and the first
    exception leaves the comprehension. *)
Fixpoint comprehension {A B} (f : A → result B) (xs : list A) : result (list B) :=
  match xs with
  | [] => mret []
  | x :: xs' => y ← f x; ys ← comprehension f xs'; mret (y :: ys)
  end.

(** A method body: it receives [self] and leaves a (possibly updated) [self]
    behind, together with its return value or the exception it raised. *)
Definition method (S A : Type) : Type := S → result A * S.

#[global] Instance method_ret {S} : MRet (method S) := λ A x self, (inr x, self).
#[global] Instance method_bind {S} : MBind (method S) :=
  λ A B f m self,
    match m self with
    | (inl e, self') => (inl e, self')
    | (inr a, self') => f a self'
    end.

(** [self.attr] *)
Definition getattr {S A} (attr : S → A) : method S A := λ self, (inr (attr self), self).

(** An expression that does not touch [self]. *)
Definition eval {S A} (r : result A) : method S A := λ self, (r, self).

(** [Class(...).method(...)]: the constructor runs first, and the method is
    called on the instance it returns. *)
Definition call {S A} (constructed : result S) (m : method S A) : result A :=
  self ← constructed; (m self).1.

(** ** Strings *)

Definition dq : string := String (Ascii.ascii_of_nat 34) "".
Definition newline : string := String (Ascii.ascii_of_nat 10) "".

(** The lines of a triple-quoted literal, joined by line feeds. *)
Definition lines (ls : list string) : string := String.concat newline ls.

(** Truth value of an [Optional[str]]: [None] and the empty string are false. *)
Definition truthy (o : option string) : bool :=
  match o with
  | Some s => negb (String.eqb s "")
  | None => false
  end.

(** ** Model replies *)

(** The structured output of the model, decoded from JSON. *)
Inductive json :=
| JNull
| JBool (b : bool)
| JInt (z : Z)
| JFloat (mantissa exponent : Z)
| JStr (s : string)
| JList (l : list json)
| JDict (m : gmap string json).

(** ** Library data *)

(** [packageurl.PackageURL] *)
Module PackageURL.
Record t := {
  type : string;
  namespace : option string;
  name : string;
  version : option string;
  qualifiers : gmap string string;
  subpath : option string
}.
End PackageURL.

(** [pydantic_ai.settings.ModelSettings] *)
Record ModelSettings := { temperature : Z; seed : Z }.

(** [pydantic_ai.providers.openai.OpenAIProvider] with its keyword arguments. *)
Record OpenAIProvider := { openai_client : option string; api_key : option string }.

(** [pydantic_ai.models.openai.OpenAIModel] *)
Record OpenAIModel := { model_name : option string; provider : OpenAIProvider }.

(** What an agent has sent and received after its system prompt: the user
    prompt, a reply of the model, and the retry prompt that reports the
    validation errors of the reply before it. *)
Inductive Message :=
| UserPromptPart (content : string)
| ModelResponse (structured : json)
| RetryPromptPart (errors : list ErrorDetails).

(** A class of [univers.version_range]: its [from_string] classmethod over the
    range objects [R]. *)
Record RangeClass (R : Type) := { from_string : string → Raised + R }.
Arguments from_string {R} _ _.

(** What the module imports or reaches at run time. *)
Class Collaborators := {
  (** [os.getenv] after [load_dotenv()] *)
  getenv : string → option string;
  (** one exchange with the model endpoint: system prompt, settings and the
      conversation so far in, decoded structured output (or a provider
      failure) out *)
  request : OpenAIModel → string → ModelSettings → list Message → Raised + json;
  (** [PackageURL.from_string] *)
  PackageURL_from_string : string → Raised + PackageURL.t;
  (** range objects of [univers] *)
  VersionRange : Type;
  (** [univers.version_range.RANGE_CLASS_BY_SCHEMES] *)
  RANGE_CLASS_BY_SCHEMES : gmap string (RangeClass VersionRange)
}.

(** ** pydantic validation *)

(** A [str] field: JSON strings only. *)
Definition validate_str (at_ : list LocItem) (v : json) : list ErrorDetails + string :=
  match v with
  | JStr s => inr s
  | _ => inl [{| loc := at_; type := string_type |}]
  end.

(** The items of a [List[str]] field from index [i] on: every item is
    checked, and the errors of all of them are reported. *)
Fixpoint validate_items (at_ : list LocItem) (i : nat) (l : list json)
  : list ErrorDetails * list string :=
  match l with
  | [] => ([], [])
  | v :: l' =>
      let '(errs, strs) := validate_items at_ (S i) l' in
      match validate_str (at_ ++ [Index i]) v with
      | inl e => (e ++ errs, strs)
      | inr s => (errs, s :: strs)
      end
  end.

(** A [List[str]] field: a JSON array whose items are all strings. *)
Definition validate_list_str (at_ : list LocItem) (v : json) : list ErrorDetails + list string :=
  match v with
  | JList l =>
      match validate_items at_ 0 l with
      | ([], strs) => inr strs
      | (errs, _) => inl errs
      end
  | _ => inl [{| loc := at_; type := list_type |}]
  end.

(** A required field of a model: absent keys are reported as [missing].
    Keys of the input that no field declares are not looked at (the models
    below keep pydantic's default configuration). *)
Definition required {A} (m : gmap string json) (name : string)
    (validate : list LocItem → json → list ErrorDetails + A) : list ErrorDetails + A :=
  match m !! name with
  | Some v => validate [Field name] v
  | None => inl [{| loc := [Field name]; type := missing |}]
  end.

(** A [field_validator] running after the field's own validation: a
    [ValueError] becomes a [value_error] entry, any other exception leaves
    the validation. *)
Definition after_validator {A} (f : A → result A) (at_ : list LocItem) (v : A)
  : result (list ErrorDetails + A) :=
  match f v with
  | inr v' => mret (inr v')
  | inl (ValueError msg) => mret (inl [{| loc := at_; type := value_error msg |}])
  | inl e => raise e
  end.

Definition line_errors {A} (r : list ErrorDetails + A) : list ErrorDetails :=
  match r with inl errs => errs | inr _ => [] end.

(** ** The two schemas *)

Module Purl.
Record t := { string : String.string }.

Section Validation.
Context {libs : Collaborators}.

Definition check_valid_purl (v : String.string) : result String.string :=
  match PackageURL_from_string v with
  | inl e => raise (ValueError ("Invalid PURL '" +:+ v +:+ "': " +:+ exc_str e))
  | inr _ => mret v
  end.

(** Building a [Purl] from the decoded reply, as pydantic does. *)
Definition model_validate (raw : json) : result t :=
  match raw with
  | JDict m =>
      match required m "string" validate_str with
      | inl errs => raise (ValidationError "Purl" errs)
      | inr v =>
          checked ← after_validator check_valid_purl [Field "string"] v;
          match checked with
          | inl errs => raise (ValidationError "Purl" errs)
          | inr v' => mret {| string := v' |}
          end
      end
  | _ => raise (ValidationError "Purl" [{| loc := []; type := model_type |}])
  end.
End Validation.
End Purl.

Module Versions.
Record t := { affected_versions : list string; fixed_versions : list string }.

(** Building a [Versions] from the decoded reply: both fields are validated
    and the errors of both are reported together. *)
Definition model_validate (raw : json) : result t :=
  match raw with
  | JDict m =>
      match required m "affected_versions" validate_list_str,
            required m "fixed_versions" validate_list_str with
      | inr a, inr f => mret {| affected_versions := a; fixed_versions := f |}
      | a, f => raise (ValidationError "Versions" (line_errors a ++ line_errors f))
      end
  | _ => raise (ValidationError "Versions" [{| loc := []; type := model_type |}])
  end.
End Versions.

(** ** Prompts *)

Definition prompt_purl_from_summary : string :=
  lines [
    "";
    "You are a highly specialized Vulnerability Analysis Assistant. Your task is to analyze the provided vulnerability summary or package name and extract a single valid Package URL (PURL) that conforms to the official PURL specification:";
    "";
    "**Component Definitions (Required by PURL Specification):**";
    "- **scheme**: Constant value `pkg`";
    "- **type**: Package type or protocol (e.g., maven, npm, nuget, gem, pypi, rpm, etc.) — must be a known valid type";
    "- **namespace**: A name prefix such as a Maven groupId, Docker image owner, or GitHub user/org (optional and type-specific)";
    "- **name**: Package name (required)";
    "- **version**: Version of the package (optional)";
    "- **qualifiers**: Extra data like OS, arch, etc. (optional and type-specific)";
    "- **subpath**: Subpath within the package (optional)";
    "";
    "**Output Instructions:**";
    "- Identify the most appropriate and valid PURL type for the package if possible.";
    "- If a valid and complete PURL can be constructed, return only:";
    "  `{ " +:+ dq +:+ "string" +:+ dq +:+ ": " +:+ dq +:+ "pkg:type/namespace/name@version?qualifiers#subpath" +:+ dq +:+ " }`";
    "- If no valid PURL can be constructed or the type is unknown, return:";
    "  `{}`";
    "- Do not include any other output (no explanation, formatting, or markdown).";
    "";
    "please don't Hallucinate";
    ""
  ].

Definition prompt_version_from_summary : string :=
  lines [
    "";
    "        You are a highly specialized Vulnerability Analysis Assistant. Your task is to analyze the following vulnerability summary and accurately extract the affected and fixed versions of the software.";
    "        ";
    "        Instructions:";
    "        - Affected Version: Use one of the following formats:";
    "          - >= <version>, <= <version>, > <version>, < <version>";
    "          - A specific range like <version1> - <version2>";
    "        - Fixed Version: Use one of the following formats:";
    "          - >= <version>, <= <version>, > <version>, < <version>";
    "          - " +:+ dq +:+ "Not Fixed" +:+ dq +:+ " if no fixed version is mentioned.";
    "        - Ensure accuracy by considering different ways affected and fixed versions might be described in the summary.";
    "        - Extract only version-related details without adding any extra information.";
    "        ";
    "        Output Format:";
    "        ```json";
    "        {";
    "            " +:+ dq +:+ "affected_versions" +:+ dq +:+ ": [" +:+ dq +:+ "<version_condition>" +:+ dq +:+ ", " +:+ dq +:+ "<version_condition>" +:+ dq +:+ "],";
    "            " +:+ dq +:+ "fixed_versions" +:+ dq +:+ ": [" +:+ dq +:+ "<version_condition>" +:+ dq +:+ ", " +:+ dq +:+ "<version_condition>" +:+ dq +:+ "]";
    "        }";
    "        ```";
    "        Example:";
    "        {";
    "            " +:+ dq +:+ "affected_versions" +:+ dq +:+ ": [" +:+ dq +:+ ">=1.2.3" +:+ dq +:+ ", " +:+ dq +:+ "<2.0.0" +:+ dq +:+ "],";
    "            " +:+ dq +:+ "fixed_versions" +:+ dq +:+ ": [" +:+ dq +:+ "2.0.0" +:+ dq +:+ "]";
    "        }";
    "        ";
    "        Return only the JSON object without any additional text.";
    "        "
  ].

Definition prompt_purl_from_cpe : string :=
  lines [
    "";
    "You are a specialized Vulnerability Analysis Assistant. Your task is to analyze the provided vulnerability CPE or Known Affected Software Configurations and extract a single, valid Package URL (PURL) that strictly conforms to the official PURL specification.";
    "";
    "**PURL Format:**  ";
    "pkg:type/namespace/name@version";
    "";
    "- **type**: The package type (e.g., maven, npm, pypi, gem, nuget, rpm, deb, docker, etc.)";
    "- **namespace**: The namespace, organization, or group (optional, use only if present and verifiable)";
    "- **name**: The package name";
    "- **version**: The package version (if available)";
    "";
    "**Instructions:**";
    "- Use only verifiable, extractable data from the CPE or software configuration input.";
    "- Construct the most accurate PURL string based on the input.";
    "- The PURL must be syntactically valid and follow the required format.";
    "- Output only:";
    "  { " +:+ dq +:+ "string" +:+ dq +:+ ": " +:+ dq +:+ "pkg:type/namespace/name@version" +:+ dq +:+ " }";
    "- If a valid PURL cannot be reliably generated, output: {}";
    "- Do not provide explanations, additional text, or markdown formatting.";
    "- Do not assume or hallucinate any values.";
    "";
    ""
  ].

(** ** Agents *)

(** A pydantic [BaseModel] subclass usable as an agent's [output_type]: the
    class builds its instances from the decoded reply. *)
Class BaseModel (T : Type) := { model_validate : json → result T }.

#[global] Instance Purl_BaseModel {libs : Collaborators} : BaseModel Purl.t :=
  {| model_validate := Purl.model_validate |}.
#[global] Instance Versions_BaseModel : BaseModel Versions.t :=
  {| model_validate := Versions.model_validate |}.

(** [pydantic_ai.Agent], generic in its output type [T] (the [output_type]
    argument of the constructor): the model it talks to, its system prompt
    and its settings. *)
Record Agent (T : Type) := {
  agent_model : OpenAIModel;
  system_prompt : string;
  model_settings : ModelSettings
}.
Arguments agent_model {T} _.
Arguments system_prompt {T} _.
Arguments model_settings {T} _.

Record AgentRunResult (T : Type) := { output : T }.
Arguments output {T} _.

Section Facades.
Context {libs : Collaborators}.

Definition OLLAMA_MODEL_NAME : option string := getenv "OLLAMA_MODEL_NAME".
Definition OLLAMA_BASE_URL : option string := getenv "OLLAMA_BASE_URL".
Definition OPENAI_API_KEY : option string := getenv "OPENAI_API_KEY".
Definition OPENAI_MODEL_NAME : option string := getenv "OPENAI_MODEL_NAME".

(** What the endpoint answers on behalf of [agent] to the conversation
    [messages]. *)
Definition exchange {T} (agent : Agent T) (messages : list Message) : Raised + json :=
  request (agent_model agent) (system_prompt agent) (model_settings agent) messages.

(** What the endpoint answers to [user_prompt] on behalf of [agent]: the
    first exchange of a run. *)
Definition reply {T} (agent : Agent T) (user_prompt : string) : Raised + json :=
  exchange agent [UserPromptPart user_prompt].

(** What the endpoint answers when [agent] reports that its reply [rejected]
    to [user_prompt] failed validation with [errors]. *)
Definition retry_reply {T} (agent : Agent T) (user_prompt : string)
    (rejected : json) (errors : list ErrorDetails) : Raised + json :=
  exchange agent [UserPromptPart user_prompt; ModelResponse rejected;
                  RetryPromptPart errors].

(** The number of retries of an agent built without a [retries] argument. *)
Definition default_retries : nat := 1.

(** The run of an agent with [retries_left] retries to spend: the reply to
    the conversation is validated against the output type; a reply that fails
    validation is sent back with its errors in a retry prompt, until the
    retries are used up; a provider failure ends the run at once. *)
Fixpoint run_from {T} `{BaseModel T} (agent : Agent T) (retries_left : nat)
    (messages : list Message) : result T :=
  raw ← extern (exchange agent messages);
  match model_validate raw with
  | inr out => mret out
  | inl (ValidationError _ errors) =>
      match retries_left with
      | S retries_left' =>
          run_from agent retries_left'
            (messages ++ [ModelResponse raw; RetryPromptPart errors])
      | O => raise (UnexpectedModelBehavior default_retries)
      end
  | inl e => raise e
  end.

(** [agent.run_sync(user_prompt=...)] *)
Definition run_sync {T} `{BaseModel T} (agent : Agent T) (user_prompt : string)
  : result (AgentRunResult T) :=
  out ← run_from agent default_retries [UserPromptPart user_prompt];
  mret {| output := out |}.

(** What the OpenAI client raises when it is given no API key. *)
Definition OpenAIError : Raised :=
  {| exc_type := "OpenAIError";
     exc_str := "The api_key client option must be set either by passing api_key "
                +:+ "to the client or by setting the OPENAI_API_KEY environment variable" |}.

(** [OpenAIProvider(openai_client=..., api_key=...)]: a client that is
    passed in is kept as it is; otherwise a client is created, which needs
    an API key from the argument or from the environment. *)
Definition OpenAIProvider_init (openai_client api_key : option string)
  : result OpenAIProvider :=
  match openai_client, api_key, getenv "OPENAI_API_KEY" with
  | None, None, None => raise (External OpenAIError)
  | _, _, _ => mret {| openai_client := openai_client; api_key := api_key |}
  end.

(** The model chosen from the environment by both constructors. *)
Definition configured_model : result OpenAIModel :=
  if truthy OLLAMA_MODEL_NAME && truthy OLLAMA_BASE_URL then
    provider ← OpenAIProvider_init OLLAMA_BASE_URL None;
    mret {| model_name := OLLAMA_MODEL_NAME; provider := provider |}
  else
    provider ← OpenAIProvider_init None OPENAI_API_KEY;
    mret {| model_name := OPENAI_MODEL_NAME; provider := provider |}.

(** The user prompt built from a vulnerability summary (lines 147-150 and
    165-168). *)
Definition summary_prompt (summary : string) : string :=
  lines [
    "";
    "        **Vulnerability Summary:**";
    "        " +:+ summary;
    "        "
  ].

(** The user prompt built from a CPE (lines 195-198). *)
Definition cpe_prompt (cpe : string) : string :=
  lines [
    "";
    "        **Vulnerability Known Affected Software Configurations CPE:**";
    "        " +:+ cpe;
    "        "
  ].

(** The string handed to the range parser for one constraint. *)
Definition vers (supported_ecosystem version_range : string) : string :=
  ("vers:" +:+ supported_ecosystem +:+ "/") +:+ version_range.

(** The expression of the two comprehensions of [get_version_ranges]
    (lines 155 and 156), for the list it ranges over: the registry is
    subscripted anew for every element. *)
Definition resolve (supported_ecosystem : string) (version_ranges : list string)
  : result (list VersionRange) :=
  comprehension
    (λ version_range,
       range_class ← getitem RANGE_CLASS_BY_SCHEMES supported_ecosystem;
       extern (from_string range_class (vers supported_ecosystem version_range)))
    version_ranges.
End Facades.

Module VulnerabilitySummaryParser.
Record t := {
  model : OpenAIModel;
  purl_agent : Agent Purl.t;
  versions_agent : Agent Versions.t
}.

Section Methods.
Context {libs : Collaborators}.

Definition __init__ : result t :=
  model ← configured_model;
  mret {| model := model;
          purl_agent :=
            {| agent_model := model;
               system_prompt := prompt_purl_from_summary;
               model_settings := {| temperature := 0; seed := 42 |} |};
          versions_agent :=
            {| agent_model := model;
               system_prompt := prompt_version_from_summary;
               model_settings := {| temperature := 0; seed := 42 |} |} |}.

Definition get_version_ranges (summary supported_ecosystem : string)
  : method t (list VersionRange * list VersionRange) :=
  agent ← getattr versions_agent;
  result ← eval (run_sync agent (summary_prompt summary));
  let affected_version_ranges := Versions.affected_versions (output result) in
  let fixed_version_ranges := Versions.fixed_versions (output result) in
  affected_version_objs ← eval (resolve supported_ecosystem affected_version_ranges);
  fixed_version_objs ← eval (resolve supported_ecosystem fixed_version_ranges);
  mret (affected_version_objs, fixed_version_objs).

Definition get_purl (summary : string) : method t PackageURL.t :=
  agent ← getattr purl_agent;
  result ← eval (run_sync agent (summary_prompt summary));
  eval (extern (PackageURL_from_string (Purl.string (output result)))).
End Methods.
End VulnerabilitySummaryParser.

Module CPEParser.
Record t := {
  model : OpenAIModel;
  purl_agent : Agent Purl.t
}.

Section Methods.
Context {libs : Collaborators}.

Definition __init__ : result t :=
  model ← configured_model;
  mret {| model := model;
          purl_agent :=
            {| agent_model := model;
               system_prompt := prompt_purl_from_cpe;
               model_settings := {| temperature := 0; seed := 42 |} |} |}.

Definition get_purl (cpe : string) : method t PackageURL.t :=
  agent ← getattr purl_agent;
  result ← eval (run_sync agent (cpe_prompt cpe));
  eval (extern (PackageURL_from_string (Purl.string (output result)))).
End Methods.
End CPEParser.

(** ** Sample collaborators

    A small stand-in for the libraries and the endpoint, used to run the
    module on concrete inputs: the endpoint answers [answer] to every
    request, the PURL reader knows one package, and the registry holds one
    scheme whose ranges are written with digits, dots and comparators. *)
Module Sample.
Definition django : PackageURL.t :=
  {| PackageURL.type := "pypi";
     PackageURL.namespace := None;
     PackageURL.name := "django";
     PackageURL.version := Some "4.2.0";
     PackageURL.qualifiers := ∅;
     PackageURL.subpath := None |}.

Definition purl_from_string (purl : string) : Raised + PackageURL.t :=
  if String.eqb purl "pkg:pypi/django@4.2.0" then inr django
  else inl {| exc_type := "ValueError";
              exc_str := "purl is missing the required type component" |}.

Definition constraint_char (c : Ascii.ascii) : bool :=
  existsb (Ascii.eqb c) (String.list_ascii_of_string "0123456789.<>=!|").

(** Range objects are the constraint text after the scheme. *)
Definition pypi_from_string (vers : string) : Raised + string :=
  let scheme := "vers:pypi/" in
  let constraints :=
    String.substring (String.length scheme)
                     (String.length vers - String.length scheme) vers in
  if String.prefix scheme vers
     && negb (String.eqb constraints "")
     && forallb constraint_char (String.list_ascii_of_string constraints)
  then inr constraints
  else inl {| exc_type := "InvalidVersion"; exc_str := vers |}.

Definition PypiVersionRange : RangeClass string :=
  {| from_string := pypi_from_string |}.

(** The environment holds an API key and nothing else; the endpoint gives
    the same answer to every request, retries included. *)
Definition collaborators (answer : json) : Collaborators :=
  {| getenv := λ name, if String.eqb name "OPENAI_API_KEY" then Some "sk-test" else None;
     request := λ _ _ _ _, inr answer;
     PackageURL_from_string := purl_from_string;
     VersionRange := string;
     RANGE_CLASS_BY_SCHEMES := {[ "pypi" := PypiVersionRange ]} |}.

(** Collaborators whose endpoint has nothing to say. *)
Definition offline : Collaborators := collaborators JNull.

(** A reply of schema B. *)
Definition versions_reply (affected fixed : list string) : json :=
  JDict (<["affected_versions" := JList (JStr <$> affected)]>
         (<["fixed_versions" := JList (JStr <$> fixed)]> ∅)).

(** A reply of schema A. *)
Definition purl_reply (purl : string) : json :=
  JDict (<["string" := JStr purl]> ∅).

(** The instances that the constructors build in this environment. *)
Definition hosted : OpenAIModel :=
  {| model_name := None;
     provider := {| openai_client := None; api_key := Some "sk-test" |} |}.

Definition parser : VulnerabilitySummaryParser.t :=
  {| VulnerabilitySummaryParser.model := hosted;
     VulnerabilitySummaryParser.purl_agent :=
       {| agent_model := hosted;
          system_prompt := prompt_purl_from_summary;
          model_settings := {| temperature := 0; seed := 42 |} |};
     VulnerabilitySummaryParser.versions_agent :=
       {| agent_model := hosted;
          system_prompt := prompt_version_from_summary;
          model_settings := {| temperature := 0; seed := 42 |} |} |}.

Definition cpe_parser : CPEParser.t :=
  {| CPEParser.model := hosted;
     CPEParser.purl_agent :=
       {| agent_model := hosted;
          system_prompt := prompt_purl_from_cpe;
          model_settings := {| temperature := 0; seed := 42 |} |} |}.

(** A freshly constructed parser asked for version ranges, the endpoint
    answering [answer]. *)
Definition get_version_ranges (answer : json) (summary supported_ecosystem : string)
  : result (list string * list string) :=
  call (VulnerabilitySummaryParser.__init__ (libs := collaborators answer))
       (VulnerabilitySummaryParser.get_version_ranges (libs := collaborators answer)
          summary supported_ecosystem).

(** A freshly constructed parser asked for a PURL, the endpoint answering
    [answer]. *)
Definition get_purl (answer : json) (summary : string) : result PackageURL.t :=
  call (VulnerabilitySummaryParser.__init__ (libs := collaborators answer))
       (VulnerabilitySummaryParser.get_purl (libs := collaborators answer) summary).
End Sample.

(** ** Vocabulary of the statements *)

(** The value stored under [name] in a reply, if the reply is an object that
    has the key. *)
Definition field (raw : json) (name : string) : option json :=
  match raw with
  | JDict m => m !! name
  | _ => None
  end.

(** The reply carries a sequence of strings under [name]. *)
Definition string_sequence_at (raw : json) (name : string) (strs : list string) : Prop :=
  field raw name = Some (JList (JStr <$> strs)).

(** A computation ended with a pydantic [ValidationError] of model [title]. *)
Definition schema_error {A} (title : string) (r : result A) : Prop :=
  ∃ errors, r = inl (ValidationError title errors).

Section RangeVocabulary.
Context {libs : Collaborators}.

(** [range_class] reads the constraint [c] of ecosystem [eco] as [r]. *)
Definition parses (range_class : RangeClass VersionRange) (eco c : string)
    (r : VersionRange) : Prop :=
  from_string range_class ("vers:" +:+ eco +:+ "/" +:+ c) = inr r.

(** [range_class] rejects the constraint [c] of ecosystem [eco], raising [x]. *)
Definition rejects (range_class : RangeClass VersionRange) (eco c : string)
    (x : Raised) : Prop :=
  from_string range_class ("vers:" +:+ eco +:+ "/" +:+ c) = inl x.
End RangeVocabulary.

Section RunVocabulary.
Context {libs : Collaborators} {T : Type} {schema : BaseModel T}.

(** [raw] is a reply that a run of [agent] on [user_prompt] receives: the
    reply to the user prompt, or the reply to the retry prompt that follows a
    first reply failing the schema. *)
Definition received (agent : Agent T) (user_prompt : string) (raw : json) : Prop :=
  reply agent user_prompt = inr raw ∨
  ∃ rejected title errors,
    reply agent user_prompt = inr rejected ∧
    model_validate rejected = inl (ValidationError title errors) ∧
    retry_reply agent user_prompt rejected errors = inr raw.

(** The provider fails with [x] during a run of [agent] on [user_prompt]: on
    the user prompt, or on the retry prompt. *)
Definition provider_failed (agent : Agent T) (user_prompt : string) (x : Raised) : Prop :=
  reply agent user_prompt = inl x ∨
  ∃ rejected title errors,
    reply agent user_prompt = inr rejected ∧
    model_validate rejected = inl (ValidationError title errors) ∧
    retry_reply agent user_prompt rejected errors = inl x.

(** Both the reply to the user prompt and the reply to the retry prompt fail
    the schema of [agent]. *)
Definition retries_exhausted (agent : Agent T) (user_prompt : string) : Prop :=
  ∃ rejected title errors rejected' title' errors',
    reply agent user_prompt = inr rejected ∧
    model_validate rejected = inl (ValidationError title errors) ∧
    retry_reply agent user_prompt rejected errors = inr rejected' ∧
    model_validate rejected' = inl (ValidationError title' errors').
End RunVocabulary.

(** ** Sample deployments

    The libraries of [Sample] behind a chosen process environment and a
    chosen behaviour of the endpoint: an answer or a provider failure. *)
Module Deployment.
(** An endpoint that gives the same answer to every request. *)
Definition always (answer : Raised + json) : list Message → Raised + json :=
  λ _, answer.

(** An endpoint that answers [first] to the user prompt and [second] to a
    retry prompt. *)
Definition first_then (first second : Raised + json) : list Message → Raised + json :=
  λ messages, match messages with [_] => first | _ => second end.

Definition collaborators (environ : gmap string string)
    (endpoint : list Message → Raised + json) : Collaborators :=
  {| getenv := λ name, environ !! name;
     request := λ _ _ _ messages, endpoint messages;
     PackageURL_from_string := Sample.purl_from_string;
     VersionRange := string;
     RANGE_CLASS_BY_SCHEMES := {[ "pypi" := Sample.PypiVersionRange ]} |}.

Definition timed_out : Raised :=
  {| exc_type := "APITimeoutError"; exc_str := "Request timed out." |}.

(** Only the API key is set. *)
Definition key_environ : gmap string string := {[ "OPENAI_API_KEY" := "sk-test" ]}.

(** Both local variables set, and no API key. *)
Definition local_environ : gmap string string :=
  <["OLLAMA_MODEL_NAME" := "llama3"]>
    {[ "OLLAMA_BASE_URL" := "http://localhost:11434/v1" ]}.

(** The local model is named but its URL is set to the empty string. *)
Definition hosted_environ : gmap string string :=
  <["OLLAMA_MODEL_NAME" := "llama3"]>
    (<["OLLAMA_BASE_URL" := ""]>
       (<["OPENAI_MODEL_NAME" := "gpt-4o"]>
          {[ "OPENAI_API_KEY" := "sk-test" ]})).

(** A freshly constructed [VulnerabilitySummaryParser] asked for version
    ranges. *)
Definition get_version_ranges (endpoint : list Message → Raised + json)
    (summary supported_ecosystem : string) : result (list string * list string) :=
  call (VulnerabilitySummaryParser.__init__ (libs := collaborators key_environ endpoint))
       (VulnerabilitySummaryParser.get_version_ranges
          (libs := collaborators key_environ endpoint) summary supported_ecosystem).

(** A freshly constructed [VulnerabilitySummaryParser] asked for a PURL. *)
Definition get_purl (endpoint : list Message → Raised + json) (summary : string)
  : result PackageURL.t :=
  call (VulnerabilitySummaryParser.__init__ (libs := collaborators key_environ endpoint))
       (VulnerabilitySummaryParser.get_purl
          (libs := collaborators key_environ endpoint) summary).

(** A freshly constructed [CPEParser] asked for a PURL. *)
Definition cpe_get_purl (endpoint : list Message → Raised + json) (cpe : string)
  : result PackageURL.t :=
  call (CPEParser.__init__ (libs := collaborators key_environ endpoint))
       (CPEParser.get_purl (libs := collaborators key_environ endpoint) cpe).
End Deployment.

(** A method that leaves [self] as it found it, whatever it returns. *)
Definition read_only {S A} (m : method S A) : Prop := ∀ self, (m self).2 = self.

(** * Properties *)

(** ** The error monad and comprehensions *)

Lemma result_bind_inr {A B} (f : A → result B) (a : A) : (inr a ≫= f) = f a.
Proof. reflexivity. Qed.

Lemma result_bind_inl {A B} (f : A → result B) (e : exception) :
  (inl e ≫= f) = inl e.
Proof. reflexivity. Qed.

Lemma result_bind_inr_inv {A B} (f : A → result B) (m : result A) (b : B) :
  (m ≫= f) = inr b → ∃ a, m = inr a ∧ f a = inr b.
Proof. destruct m as [e|a]; [discriminate | eauto]. Qed.

Lemma comprehension_cons {A B} (f : A → result B) x xs :
  comprehension f (x :: xs) = (y ← f x; ys ← comprehension f xs; mret (y :: ys)).
Proof. reflexivity. Qed.

Lemma comprehension_ext {A B} (f g : A → result B) xs :
  (∀ x, f x = g x) → comprehension f xs = comprehension g xs.
Proof.
  intros Hfg. induction xs as [|x xs IH]; [reflexivity|].
  rewrite !comprehension_cons, Hfg, IH. reflexivity.
Qed.

(** A comprehension returns a list exactly when every element evaluates, and
    the list then holds the values in the order of the elements. *)
Lemma comprehension_inr_iff {A B} (f : A → result B) xs ys :
  comprehension f xs = inr ys ↔ Forall2 (λ x y, f x = inr y) xs ys.
Proof.
  revert ys. induction xs as [|x xs IH]; intros ys.
  - split.
    + intros [= <-]. constructor.
    + intros Hall. inversion Hall. reflexivity.
  - rewrite comprehension_cons. split.
    + intros Hrun.
      apply result_bind_inr_inv in Hrun as (y & Hy & Hrun).
      apply result_bind_inr_inv in Hrun as (ys' & Hys & [= <-]).
      constructor; [assumption | by apply IH].
    + intros Hall. inversion Hall as [|? y ? ys' Hy Hys]; subst.
      apply IH in Hys. rewrite Hy, Hys. reflexivity.
Qed.

(** The first element that raises decides the outcome: what came before it
    is dropped and what comes after it is not evaluated. *)
Lemma comprehension_first_raise {A B} (f : A → result B) before x after e :
  Forall (λ x', ∃ y, f x' = inr y) before →
  f x = inl e →
  comprehension f (before ++ x :: after) = inl e.
Proof.
  intros Hbefore Hx. induction Hbefore as [|x' before [y Hy] _ IH]; simpl.
  - rewrite Hx. reflexivity.
  - rewrite Hy, IH. reflexivity.
Qed.

(** A list with an element that raises splits at the first such element. *)
Lemma first_raise_split {A B} (f : A → result B) xs :
  Exists (λ x, ∃ e, f x = inl e) xs →
  ∃ before x after e,
    xs = before ++ x :: after ∧
    Forall (λ x', ∃ y, f x' = inr y) before ∧
    f x = inl e.
Proof.
  induction 1 as [x xs [e He]|x xs _ IH].
  - exists [], x, xs, e. by repeat split.
  - destruct (f x) as [e|y] eqn:Hx.
    + exists [], x, xs, e. by repeat split.
    + destruct IH as (before & x' & after & e & -> & Hbefore & Hx').
      exists (x :: before), x', after, e. repeat split; [|done].
      constructor; eauto.
Qed.

(** ** Agent runs *)

Section Runs.
Context {libs : Collaborators} {T : Type} {schema : BaseModel T}.
Implicit Types (agent : Agent T) (user_prompt : string).

Lemma run_from_unfold agent retries_left messages :
  run_from agent retries_left messages
  = (raw ← extern (exchange agent messages);
     match model_validate raw with
     | inr out => mret out
     | inl (ValidationError _ errors) =>
         match retries_left with
         | S retries_left' =>
             run_from agent retries_left'
               (messages ++ [ModelResponse raw; RetryPromptPart errors])
         | O => raise (UnexpectedModelBehavior default_retries)
         end
     | inl e => raise e
     end).
Proof. destruct retries_left; reflexivity. Qed.

(** A provider failure on the user prompt ends the run. *)
Lemma run_sync_provider_failure agent user_prompt x :
  reply agent user_prompt = inl x → run_sync agent user_prompt = inl (External x).
Proof.
  unfold run_sync, reply. intros Hreply.
  rewrite run_from_unfold, Hreply. reflexivity.
Qed.

(** A first reply that passes the schema is the output of the run. *)
Lemma run_sync_first_valid agent user_prompt raw out :
  reply agent user_prompt = inr raw →
  model_validate raw = inr out →
  run_sync agent user_prompt = inr {| output := out |}.
Proof.
  unfold run_sync, reply. intros Hreply Hvalid.
  rewrite run_from_unfold, Hreply. simpl. rewrite Hvalid. reflexivity.
Qed.

(** After a first reply that fails the schema, the run is the outcome of the
    retry exchange. *)
Lemma run_sync_retry agent user_prompt rejected title errors :
  reply agent user_prompt = inr rejected →
  model_validate rejected = inl (ValidationError title errors) →
  run_sync agent user_prompt
  = (raw ← extern (retry_reply agent user_prompt rejected errors);
     match model_validate raw with
     | inr out => mret {| output := out |}
     | inl (ValidationError _ _) => raise (UnexpectedModelBehavior default_retries)
     | inl e => raise e
     end).
Proof.
  unfold run_sync, reply, retry_reply. intros Hreply Hvalid.
  rewrite run_from_unfold, Hreply. simpl. rewrite Hvalid. simpl.
  destruct (extern _) as [e|raw]; [reflexivity|]. simpl.
  destruct (model_validate raw) as [[]|out]; reflexivity.
Qed.

(** A received reply that passes the schema is the output of the run. *)
Lemma run_sync_received agent user_prompt raw out :
  received agent user_prompt raw →
  model_validate raw = inr out →
  run_sync agent user_prompt = inr {| output := out |}.
Proof.
  intros [Hreply|(rejected & title & errors & Hreply & Hrejected & Hretry)] Hvalid.
  - by apply (run_sync_first_valid _ _ raw).
  - rewrite (run_sync_retry _ _ _ _ _ Hreply Hrejected), Hretry. simpl.
    by rewrite Hvalid.
Qed.

Lemma run_sync_retries_exhausted agent user_prompt :
  retries_exhausted agent user_prompt →
  run_sync agent user_prompt = inl (UnexpectedModelBehavior default_retries).
Proof.
  intros (rejected & title & errors & rejected' & title' & errors'
          & Hreply & Hrejected & Hretry & Hrejected').
  rewrite (run_sync_retry _ _ _ _ _ Hreply Hrejected), Hretry. simpl.
  by rewrite Hrejected'.
Qed.

Lemma run_sync_provider_failed agent user_prompt x :
  provider_failed agent user_prompt x →
  run_sync agent user_prompt = inl (External x).
Proof.
  intros [Hreply|(rejected & title & errors & Hreply & Hrejected & Hretry)].
  - by apply run_sync_provider_failure.
  - by rewrite (run_sync_retry _ _ _ _ _ Hreply Hrejected), Hretry.
Qed.

(** The output of a run is the validated form of a reply that the run
    received. *)
Lemma run_sync_inr_inv agent user_prompt res :
  run_sync agent user_prompt = inr res →
  ∃ raw, received agent user_prompt raw ∧ model_validate raw = inr (output res).
Proof.
  destruct (reply agent user_prompt) as [x|raw] eqn:Hreply.
  { by rewrite (run_sync_provider_failure _ _ _ Hreply). }
  destruct (model_validate raw) as [e|out] eqn:Hvalid.
  - destruct e as [| |title errors| |];
      try (unfold run_sync, reply in *; rewrite run_from_unfold, Hreply; simpl;
           rewrite Hvalid; discriminate).
    rewrite (run_sync_retry _ _ _ _ _ Hreply Hvalid).
    destruct (retry_reply agent user_prompt raw errors) as [x|raw'] eqn:Hretry;
      [discriminate|]. simpl.
    destruct (model_validate raw') as [[]|out] eqn:Hvalid'; try discriminate.
    intros [= <-]. exists raw'. split; [|done].
    right. by exists raw, title, errors.
  - rewrite (run_sync_first_valid _ _ _ _ Hreply Hvalid). intros [= <-].
    exists raw. split; [by left | done].
Qed.

(** Why a run can fail, for a schema whose only exception is pydantic's
    validation error. *)
Lemma run_sync_inl_inv agent user_prompt e :
  (∀ raw e', model_validate raw = inl e' → ∃ title errors, e' = ValidationError title errors) →
  run_sync agent user_prompt = inl e →
  (∃ x, provider_failed agent user_prompt x ∧ e = External x) ∨
  (retries_exhausted agent user_prompt ∧ e = UnexpectedModelBehavior default_retries).
Proof.
  intros Hschema.
  destruct (reply agent user_prompt) as [x|raw] eqn:Hreply.
  { rewrite (run_sync_provider_failure _ _ _ Hreply). intros [= <-].
    left. exists x. split; [by left | done]. }
  destruct (model_validate raw) as [e'|out] eqn:Hvalid.
  - destruct (Hschema _ _ Hvalid) as (title & errors & ->).
    rewrite (run_sync_retry _ _ _ _ _ Hreply Hvalid).
    destruct (retry_reply agent user_prompt raw errors) as [x|raw'] eqn:Hretry; simpl.
    { intros [= <-]. left. exists x. split; [|done].
      right. by exists raw, title, errors. }
    destruct (model_validate raw') as [e'|out] eqn:Hvalid'; [|discriminate].
    destruct (Hschema _ _ Hvalid') as (title' & errors' & ->).
    intros [= <-]. right. split; [|done].
    by exists raw, title, errors, raw', title', errors'.
  - by rewrite (run_sync_first_valid _ _ _ _ Hreply Hvalid).
Qed.
End Runs.

(** ** Range resolution *)

Lemma string_app_assoc (a b c : string) : (a +:+ b) +:+ c = a +:+ (b +:+ c).
Proof.
  induction a as [|x a IH]; [reflexivity|].
  change (String x ((a +:+ b) +:+ c) = String x (a +:+ (b +:+ c))). by rewrite IH.
Qed.

(** The text built for the parser, written out. *)
Lemma vers_literal eco c : vers eco c = "vers:" +:+ eco +:+ "/" +:+ c.
Proof. unfold vers. by rewrite !string_app_assoc. Qed.

Section Resolution.
Context {libs : Collaborators}.
Implicit Types (eco c : string) (cs : list string).
Implicit Types (range_class : RangeClass VersionRange).

Lemma resolve_nil eco : resolve eco [] = inr [].
Proof. reflexivity. Qed.

Lemma parses_vers range_class eco c r :
  parses range_class eco c r ↔ from_string range_class (vers eco c) = inr r.
Proof. unfold parses. by rewrite vers_literal. Qed.

Lemma rejects_vers range_class eco c x :
  rejects range_class eco c x ↔ from_string range_class (vers eco c) = inl x.
Proof. unfold rejects. by rewrite vers_literal. Qed.

(** With a registered ecosystem every subscript finds the same class. *)
Lemma resolve_registered eco range_class cs :
  RANGE_CLASS_BY_SCHEMES !! eco = Some range_class →
  resolve eco cs = comprehension (λ c, extern (from_string range_class (vers eco c))) cs.
Proof.
  intros Hreg. apply comprehension_ext. intros c.
  unfold getitem. rewrite Hreg. reflexivity.
Qed.

Lemma extern_inr {A} (r : Raised + A) (a : A) : extern r = inr a ↔ r = inr a.
Proof. destruct r; simpl; split; congruence. Qed.

Lemma extern_inl {A} (r : Raised + A) (x : Raised) : r = inl x → extern r = inl (External x).
Proof. by intros ->. Qed.

Lemma resolve_inr_iff eco range_class cs rs :
  RANGE_CLASS_BY_SCHEMES !! eco = Some range_class →
  resolve eco cs = inr rs ↔ Forall2 (parses range_class eco) cs rs.
Proof.
  intros Hreg. rewrite (resolve_registered _ _ _ Hreg), comprehension_inr_iff.
  split; intros Hall; (eapply Forall2_impl; [exact Hall|]);
    intros c r; rewrite parses_vers; apply extern_inr.
Qed.

Lemma resolve_first_rejected eco range_class before c after x :
  RANGE_CLASS_BY_SCHEMES !! eco = Some range_class →
  Forall (λ c', ∃ r, parses range_class eco c' r) before →
  rejects range_class eco c x →
  resolve eco (before ++ c :: after) = inl (External x).
Proof.
  intros Hreg Hbefore Hc. rewrite (resolve_registered _ _ _ Hreg).
  apply comprehension_first_raise; [|by apply extern_inl, rejects_vers].
  eapply Forall_impl; [exact Hbefore|]. intros c' [r Hr].
  exists r. by apply extern_inr, parses_vers.
Qed.

(** A list with a rejected constraint fails with what the parser raised on
    one of its constraints. *)
Lemma resolve_rejected eco range_class cs :
  RANGE_CLASS_BY_SCHEMES !! eco = Some range_class →
  Exists (λ c, ∃ x, rejects range_class eco c x) cs →
  ∃ c x, c ∈ cs ∧ rejects range_class eco c x ∧ resolve eco cs = inl (External x).
Proof.
  intros Hreg Hbad.
  destruct (first_raise_split (λ c, extern (from_string range_class (vers eco c))) cs)
    as (before & c & after & e & -> & Hbefore & Hc).
  { eapply Exists_impl; [exact Hbad|]. intros c [x Hx].
    exists (External x). by apply extern_inl, rejects_vers. }
  destruct (from_string range_class (vers eco c)) as [x|r] eqn:Hparse; [|discriminate].
  apply rejects_vers in Hparse.
  exists c, x. split; [|split; [exact Hparse|]].
  - apply elem_of_app. right. apply list_elem_of_here.
  - apply (resolve_first_rejected _ range_class); [done| |exact Hparse].
    eapply Forall_impl; [exact Hbefore|]. intros c' [r Hr].
    exists r. by apply parses_vers, extern_inr.
Qed.

Lemma resolve_unregistered eco c cs :
  RANGE_CLASS_BY_SCHEMES !! eco = None →
  resolve eco (c :: cs) = inl (KeyError eco).
Proof.
  intros Hreg. unfold resolve. rewrite comprehension_cons.
  unfold getitem. rewrite Hreg. reflexivity.
Qed.

(** The value of [get_version_ranges], step by step. *)
Lemma get_version_ranges_eq self summary eco :
  (VulnerabilitySummaryParser.get_version_ranges summary eco self).1
  = (result ← run_sync (VulnerabilitySummaryParser.versions_agent self)
                       (summary_prompt summary);
     affected ← resolve eco (Versions.affected_versions (output result));
     fixed ← resolve eco (Versions.fixed_versions (output result));
     mret (affected, fixed)).
Proof.
  unfold VulnerabilitySummaryParser.get_version_ranges, getattr, eval.
  unfold mbind at 1 2 3 4, method_bind, mret, method_ret. simpl.
  destruct (run_sync _ _) as [e|result]; [reflexivity|]. simpl.
  destruct (resolve eco (Versions.affected_versions (output result)));
    [reflexivity|]. simpl.
  destruct (resolve eco (Versions.fixed_versions (output result))); reflexivity.
Qed.

(** The value of [get_version_ranges] once a received reply has been
    validated. *)
Lemma get_version_ranges_received self summary eco raw versions :
  received (VulnerabilitySummaryParser.versions_agent self) (summary_prompt summary) raw →
  Versions.model_validate raw = inr versions →
  (VulnerabilitySummaryParser.get_version_ranges summary eco self).1
  = (affected ← resolve eco (Versions.affected_versions versions);
     fixed ← resolve eco (Versions.fixed_versions versions);
     mret (affected, fixed)).
Proof.
  intros Hreceived Hvalid.
  by rewrite get_version_ranges_eq, (run_sync_received _ _ raw versions).
Qed.

(** The value of [get_version_ranges] once the reply has been validated. *)
Lemma get_version_ranges_validated self summary eco raw versions :
  reply (VulnerabilitySummaryParser.versions_agent self) (summary_prompt summary) = inr raw →
  Versions.model_validate raw = inr versions →
  (VulnerabilitySummaryParser.get_version_ranges summary eco self).1
  = (affected ← resolve eco (Versions.affected_versions versions);
     fixed ← resolve eco (Versions.fixed_versions versions);
     mret (affected, fixed)).
Proof.
  intros Hreply Hvalid. apply (get_version_ranges_received _ _ _ raw); [by left | done].
Qed.
End Resolution.

Section ResolutionFailures.
Context {libs : Collaborators}.

(** A failed resolution over a registered ecosystem comes from a rejected
    constraint of the list. *)
Lemma resolve_inl_inv eco range_class cs e :
  RANGE_CLASS_BY_SCHEMES !! eco = Some range_class →
  resolve eco cs = inl e →
  ∃ c x, c ∈ cs ∧ rejects range_class eco c x ∧ e = External x.
Proof.
  intros Hreg. rewrite (resolve_registered _ _ _ Hreg).
  induction cs as [|c cs IH]; [discriminate|].
  rewrite comprehension_cons.
  destruct (from_string range_class (vers eco c)) as [x|r] eqn:Hc; simpl.
  - intros [= <-]. apply rejects_vers in Hc.
    exists c, x. split; [apply list_elem_of_here | done].
  - destruct (comprehension _ cs) as [e'|rs]; [|discriminate].
    intros [= <-]. destruct (IH eq_refl) as (c' & x & Hin & Hrej & ->).
    exists c', x. split; [by apply list_elem_of_further | done].
Qed.
End ResolutionFailures.

(** C1. For a registered ecosystem, the comprehension of [get_version_ranges]
    maps the empty list to the empty list; when every constraint [c] of the
    list parses as ["vers:" + eco + "/" + c] under the registered class, it
    returns those parses; and whenever it returns, the result has the length
    of the input and its i-th element is the parse of the text
    ["vers:" + eco + "/" + c] for the i-th constraint [c] (nothing is merged,
    dropped or reordered).  [get_version_ranges] returns the two lists so
    obtained from the affected and the fixed constraints of the validated
    reply. *)
Theorem resolve_in_input_order {libs : Collaborators} (eco : string)
    (range_class : RangeClass VersionRange) :
  RANGE_CLASS_BY_SCHEMES !! eco = Some range_class →
  let parse_of c r := from_string range_class ("vers:" +:+ eco +:+ "/" +:+ c) = inr r in
  resolve eco [] = inr [] ∧
  (∀ cs rs, Forall2 parse_of cs rs → resolve eco cs = inr rs) ∧
  (∀ cs rs, resolve eco cs = inr rs →
     length rs = length cs ∧
     ∀ i c, cs !! i = Some c →
       ∃ r, rs !! i = Some r ∧
            from_string range_class ("vers:" +:+ eco +:+ "/" +:+ c) = inr r) ∧
  (∀ self summary raw versions affected fixed,
     reply (VulnerabilitySummaryParser.versions_agent self) (summary_prompt summary)
       = inr raw →
     Versions.model_validate raw = inr versions →
     Forall2 parse_of (Versions.affected_versions versions) affected →
     Forall2 parse_of (Versions.fixed_versions versions) fixed →
     (VulnerabilitySummaryParser.get_version_ranges summary eco self).1
     = inr (affected, fixed)).
Proof.
  intros Hreg parse_of. split; [apply resolve_nil|]. split; [|split].
  - intros cs rs Hall. by apply (resolve_inr_iff _ range_class).
  - intros cs rs Hrun. apply (resolve_inr_iff _ range_class) in Hrun; [|done].
    split; [symmetry; by eapply Forall2_length|].
    intros i c Hc. destruct (Forall2_lookup_l _ _ _ _ _ Hrun Hc) as (r & Hr & Hparse).
    by exists r.
  - intros self summary raw versions affected fixed Hreply Hvalid Ha Hf.
    apply (resolve_inr_iff _ _ _ _ Hreg) in Ha, Hf.
    rewrite (get_version_ranges_validated _ _ _ _ _ Hreply Hvalid), Ha, Hf.
    reflexivity.
Qed.

Lemma resolve_in_input_order_witness :
  @RANGE_CLASS_BY_SCHEMES Sample.offline !! "pypi" = Some Sample.PypiVersionRange ∧
  resolve (libs := Sample.offline) "pypi" [] = inr [] ∧
  Sample.get_version_ranges (Sample.versions_reply [">=1.2.3"; "<2.0.0"] ["2.0.0"])
    "affects versions >=1.2.3 and <2.0.0, fixed in 2.0.0" "pypi"
  = inr ([">=1.2.3"; "<2.0.0"], ["2.0.0"]).
Proof.
  set (answer := Sample.versions_reply [">=1.2.3"; "<2.0.0"] ["2.0.0"]).
  assert (Hreg : ∀ answer, @RANGE_CLASS_BY_SCHEMES (Sample.collaborators answer) !! "pypi"
                           = Some Sample.PypiVersionRange)
    by (intros ?; vm_compute; reflexivity).
  split; [apply Hreg|]. split.
  - apply (proj1 (resolve_in_input_order (libs := Sample.offline) "pypi" _ (Hreg _))).
  - apply (proj2 (proj2 (proj2
      (resolve_in_input_order (libs := Sample.collaborators answer) "pypi" _ (Hreg _))))
      Sample.parser
      "affects versions >=1.2.3 and <2.0.0, fixed in 2.0.0" answer
      {| Versions.affected_versions := [">=1.2.3"; "<2.0.0"];
         Versions.fixed_versions := ["2.0.0"] |}).
    + reflexivity.
    + vm_compute; reflexivity.
    + repeat constructor.
    + repeat constructor.
Defined.



(** C6. For an ecosystem that the registry does not hold, the comprehension
    over any non-empty list raises [KeyError] for the ecosystem whatever the
    constraints are, and so does [get_version_ranges] as soon as the validated
    reply holds at least one affected or fixed constraint. *)
Theorem unregistered_ecosystem_KeyError {libs : Collaborators} (eco : string) :
  RANGE_CLASS_BY_SCHEMES !! eco = None →
  (∀ c cs, resolve eco (c :: cs) = inl (KeyError eco)) ∧
  (∀ self summary raw versions,
     reply (VulnerabilitySummaryParser.versions_agent self) (summary_prompt summary)
       = inr raw →
     Versions.model_validate raw = inr versions →
     Versions.affected_versions versions ++ Versions.fixed_versions versions ≠ [] →
     (VulnerabilitySummaryParser.get_version_ranges summary eco self).1
     = inl (KeyError eco)).
Proof.
  intros Hreg. split; [intros c cs; by apply resolve_unregistered|].
  intros self summary raw versions Hreply Hvalid Hne.
  rewrite (get_version_ranges_validated _ _ _ _ _ Hreply Hvalid).
  destruct (Versions.affected_versions versions) as [|c cs].
  - destruct (Versions.fixed_versions versions) as [|c cs]; [done|].
    by rewrite resolve_nil, (resolve_unregistered _ _ _ Hreg).
  - by rewrite (resolve_unregistered _ _ _ Hreg).
Qed.

Lemma unregistered_ecosystem_KeyError_witness :
  @RANGE_CLASS_BY_SCHEMES Sample.offline !! "cargo" = None ∧
  resolve (libs := Sample.offline) "cargo" ["2.0.0"] = inl (KeyError "cargo") ∧
  Sample.get_version_ranges (Sample.versions_reply [] ["2.0.0"]) "summary" "cargo"
  = inl (KeyError "cargo").
Proof.
  assert (Hreg : ∀ answer,
            @RANGE_CLASS_BY_SCHEMES (Sample.collaborators answer) !! "cargo" = None)
    by (intros answer; vm_compute; reflexivity).
  split; [apply Hreg|]. split.
  - apply (proj1 (unregistered_ecosystem_KeyError (libs := Sample.offline) "cargo" (Hreg _))).
  - apply (proj2 (unregistered_ecosystem_KeyError
                    (libs := Sample.collaborators (Sample.versions_reply [] ["2.0.0"]))
                    "cargo" (Hreg _))
             Sample.parser
             "summary" (Sample.versions_reply [] ["2.0.0"])
             {| Versions.affected_versions := []; Versions.fixed_versions := ["2.0.0"] |}).
    + reflexivity.
    + vm_compute; reflexivity.
    + discriminate.
Defined.

(** C10. When the validated reply holds no affected and no fixed constraint,
    [get_version_ranges] returns two empty lists for any ecosystem string,
    registered or not: the registry is only subscripted inside the
    comprehensions, once per element. *)
Theorem empty_version_lists_skip_registry {libs : Collaborators} self summary (eco : string) raw :
  reply (VulnerabilitySummaryParser.versions_agent self) (summary_prompt summary) = inr raw →
  Versions.model_validate raw
    = inr {| Versions.affected_versions := []; Versions.fixed_versions := [] |} →
  (VulnerabilitySummaryParser.get_version_ranges summary eco self).1 = inr ([], []).
Proof.
  intros Hreply Hvalid.
  rewrite (get_version_ranges_validated _ _ _ _ _ Hreply Hvalid). reflexivity.
Qed.

Lemma empty_version_lists_skip_registry_witness :
  @RANGE_CLASS_BY_SCHEMES Sample.offline !! "cargo" = None ∧
  Sample.get_version_ranges (Sample.versions_reply [] []) "summary" "cargo" = inr ([], []).
Proof.
  split; [vm_compute; reflexivity|].
  apply (empty_version_lists_skip_registry
           (libs := Sample.collaborators (Sample.versions_reply [] []))
           Sample.parser
           "summary" "cargo" (Sample.versions_reply [] []));
    [reflexivity | vm_compute; reflexivity].
Defined.

(** ** Schema validation *)

Lemma validate_items_strs at_ i (strs : list string) :
  validate_items at_ i (JStr <$> strs) = ([], strs).
Proof.
  revert i. induction strs as [|s strs IH]; intros i; [reflexivity|].
  simpl. rewrite IH. reflexivity.
Qed.

Lemma validate_items_clean at_ i l strs :
  validate_items at_ i l = ([], strs) → l = JStr <$> strs.
Proof.
  revert i strs. induction l as [|v l IH]; intros i strs; simpl.
  - intros [= <-]. reflexivity.
  - destruct (validate_items at_ (S i) l) as [errs strs'] eqn:Hrest.
    destruct v; simpl; try discriminate.
    intros [= -> <-]. rewrite (IH _ _ Hrest). reflexivity.
Qed.

Lemma validate_list_str_inr_iff at_ v strs :
  validate_list_str at_ v = inr strs ↔ v = JList (JStr <$> strs).
Proof.
  split.
  - destruct v as [| | | | |l|]; simpl; try discriminate.
    destruct (validate_items at_ 0 l) as [[|e errs] strs'] eqn:Hitems; [|discriminate].
    intros [= <-]. by rewrite (validate_items_clean _ _ _ _ Hitems).
  - intros ->. simpl. rewrite validate_items_strs. reflexivity.
Qed.

Lemma required_insert_ne {A} (m : gmap string json) k v name
    (validate : list LocItem → json → list ErrorDetails + A) :
  k ≠ name → required (<[k:=v]> m) name validate = required m name validate.
Proof. intros Hne. unfold required. by rewrite lookup_insert_ne. Qed.

(** Schema B either builds a [Versions] or raises its validation error. *)
Lemma Versions_model_validate_cases raw :
  (∃ versions, Versions.model_validate raw = inr versions) ∨
  schema_error "Versions" (Versions.model_validate raw).
Proof.
  unfold schema_error.
  destruct raw as [| | | | | |m]; simpl; try (right; eauto; fail).
  destruct (required m "affected_versions" validate_list_str),
           (required m "fixed_versions" validate_list_str); eauto.
Qed.

Lemma required_list_str_inr_iff (m : gmap string json) name strs :
  required m name validate_list_str = inr strs ↔ m !! name = Some (JList (JStr <$> strs)).
Proof.
  unfold required. destruct (m !! name) as [v|]; [|split; discriminate].
  rewrite validate_list_str_inr_iff. split; congruence.
Qed.

Lemma Versions_model_validate_inr_iff raw affected fixed :
  Versions.model_validate raw
    = inr {| Versions.affected_versions := affected; Versions.fixed_versions := fixed |}
  ↔ string_sequence_at raw "affected_versions" affected ∧
    string_sequence_at raw "fixed_versions" fixed.
Proof.
  unfold string_sequence_at.
  destruct raw as [| | | | | |m]; simpl;
    try (split; [discriminate | intros [? _]; discriminate]).
  rewrite <- !required_list_str_inr_iff.
  destruct (required m "affected_versions" validate_list_str) as [ea|a],
           (required m "fixed_versions" validate_list_str) as [ef|f]; simpl.
  all: unfold mret, result_ret, raise.
  all: split; [intros ? | intros [??]]; by simplify_eq.
Qed.

Section PurlValidation.
Context {libs : Collaborators}.

Lemma check_valid_purl_accepts v p :
  PackageURL_from_string v = inr p → Purl.check_valid_purl v = inr v.
Proof. unfold Purl.check_valid_purl. by intros ->. Qed.

Lemma check_valid_purl_rejects v x :
  PackageURL_from_string v = inl x →
  Purl.check_valid_purl v = inl (ValueError ("Invalid PURL '" +:+ v +:+ "': " +:+ exc_str x)).
Proof. unfold Purl.check_valid_purl. by intros ->. Qed.

(** Schema A either builds a [Purl] or raises its validation error. *)
Lemma Purl_model_validate_cases raw :
  (∃ purl, Purl.model_validate raw = inr purl) ∨
  schema_error "Purl" (Purl.model_validate raw).
Proof.
  unfold schema_error.
  destruct raw as [| | | | | |m]; simpl; try (right; eauto; fail).
  unfold required. destruct (m !! "string") as [v|]; [|right; eauto].
  destruct v; simpl; try (right; eauto; fail).
  unfold after_validator, Purl.check_valid_purl.
  destruct (PackageURL_from_string s); simpl; eauto.
Qed.

Lemma Purl_model_validate_inr_iff raw s :
  Purl.model_validate raw = inr {| Purl.string := s |}
  ↔ field raw "string" = Some (JStr s) ∧ ∃ p, PackageURL_from_string s = inr p.
Proof.
  destruct raw as [| | | | | |m]; simpl;
    try (split; [discriminate | intros [? _]; discriminate]).
  unfold required. destruct (m !! "string") as [v|];
    [|split; [discriminate | intros [? _]; discriminate]].
  destruct v as [| | | |s'| |]; simpl;
    try (split; [discriminate | intros [? _]; discriminate]).
  unfold after_validator, Purl.check_valid_purl.
  destruct (PackageURL_from_string s') as [x|p] eqn:Hparse; simpl.
  - split; [discriminate|]. intros [[= ->] [p Hp]]. congruence.
  - split.
    + intros [= ->]. eauto.
    + intros [[= ->] _]. reflexivity.
Qed.

(** The value of [get_purl], step by step. *)
Lemma get_purl_eq self summary :
  (VulnerabilitySummaryParser.get_purl summary self).1
  = (result ← run_sync (VulnerabilitySummaryParser.purl_agent self)
                       (summary_prompt summary);
     extern (PackageURL_from_string (Purl.string (output result)))).
Proof.
  unfold VulnerabilitySummaryParser.get_purl, getattr, eval.
  unfold mbind at 1 2, method_bind. simpl.
  destruct (run_sync _ _); reflexivity.
Qed.

Lemma CPEParser_get_purl_eq self cpe :
  (CPEParser.get_purl cpe self).1
  = (result ← run_sync (CPEParser.purl_agent self) (cpe_prompt cpe);
     extern (PackageURL_from_string (Purl.string (output result)))).
Proof.
  unfold CPEParser.get_purl, getattr, eval.
  unfold mbind at 1 2, method_bind. simpl.
  destruct (run_sync _ _); reflexivity.
Qed.

(** Schema A raises nothing but pydantic's validation error. *)
Lemma Purl_model_validate_raises raw e :
  Purl.model_validate raw = inl e → ∃ title errors, e = ValidationError title errors.
Proof.
  intros Hfail. destruct (Purl_model_validate_cases raw) as [[purl Hok]|[errors Herr]].
  - congruence.
  - exists "Purl", errors. congruence.
Qed.

(** The reader accepts the string of a validated [Purl]. *)
Lemma Purl_model_validate_parsed raw purl :
  Purl.model_validate raw = inr purl →
  field raw "string" = Some (JStr (Purl.string purl)) ∧
  ∃ p, PackageURL_from_string (Purl.string purl) = inr p.
Proof. destruct purl as [s]. apply Purl_model_validate_inr_iff. Qed.

(** A reply that names no readable package. *)
Lemma Purl_model_validate_schema_error raw :
  field raw "string" = None ∨
  (∃ v, field raw "string" = Some v ∧ ∀ s, v ≠ JStr s) ∨
  (∃ s x, field raw "string" = Some (JStr s) ∧ PackageURL_from_string s = inl x) →
  schema_error "Purl" (Purl.model_validate raw).
Proof.
  intros Hbad. destruct (Purl_model_validate_cases raw) as [[[s] Hok]|]; [|done].
  apply Purl_model_validate_inr_iff in Hok as [Hfield [p Hp]].
  destruct Hbad as [Hnone|[(v & Hv & Hstr)|(s' & x & Hs' & Hx)]].
  - congruence.
  - rewrite Hfield in Hv. injection Hv as <-. by destruct (Hstr s).
  - congruence.
Qed.
End PurlValidation.

(** C3. When the endpoint's reply carries under [string] a text [s] that
    [PackageURL.from_string] reads as [p], schema A keeps [s] as it is and
    [get_purl] returns [p], the parse of that same text. *)
Theorem get_purl_returns_parse {libs : Collaborators} self summary raw s p :
  reply (VulnerabilitySummaryParser.purl_agent self) (summary_prompt summary) = inr raw →
  field raw "string" = Some (JStr s) →
  PackageURL_from_string s = inr p →
  Purl.model_validate raw = inr {| Purl.string := s |} ∧
  (VulnerabilitySummaryParser.get_purl summary self).1 = inr p.
Proof.
  intros Hreply Hfield Hparse.
  assert (Hvalid : Purl.model_validate raw = inr {| Purl.string := s |})
    by (apply Purl_model_validate_inr_iff; eauto).
  split; [exact Hvalid|].
  rewrite get_purl_eq,
    (run_sync_first_valid (schema := Purl_BaseModel) _ _ _ _ Hreply Hvalid). simpl.
  by rewrite Hparse.
Qed.

Lemma get_purl_returns_parse_witness :
  Sample.get_purl (Sample.purl_reply "pkg:pypi/django@4.2.0") "Django 4.2.0 is affected"
  = inr {| PackageURL.type := "pypi";
           PackageURL.namespace := None;
           PackageURL.name := "django";
           PackageURL.version := Some "4.2.0";
           PackageURL.qualifiers := ∅;
           PackageURL.subpath := None |}.
Proof.
  set (answer := Sample.purl_reply "pkg:pypi/django@4.2.0").
  apply (proj2 (get_purl_returns_parse (libs := Sample.collaborators answer)
                  Sample.parser
                  "Django 4.2.0 is affected" answer "pkg:pypi/django@4.2.0" Sample.django
                  eq_refl ltac:(vm_compute; reflexivity) ltac:(vm_compute; reflexivity))).
Defined.

(** C4. A reply in which [string] is absent, is not a string, or is a string
    that [PackageURL.from_string] rejects fails schema A with pydantic's
    validation error, and the empty object fails because [string] is missing.
    No package is built from such a reply: when it answers the user prompt,
    either [get_purl] returns a package only if the reply to the retry prompt
    carries a string that the reader accepts, and raises the agent's
    [UnexpectedModelBehavior] when that reply fails schema A as well. *)
Theorem purl_schema_rejects {libs : Collaborators} raw :
  field raw "string" = None ∨
  (∃ v, field raw "string" = Some v ∧ ∀ s, v ≠ JStr s) ∨
  (∃ s x, field raw "string" = Some (JStr s) ∧ PackageURL_from_string s = inl x) →
  schema_error "Purl" (Purl.model_validate raw) ∧
  (∀ self summary,
     let agent := VulnerabilitySummaryParser.purl_agent self in
     let outcome := (VulnerabilitySummaryParser.get_purl summary self).1 in
     reply agent (summary_prompt summary) = inr raw →
     (∀ p, outcome = inr p →
        ∃ errors raw' s,
          Purl.model_validate raw = inl (ValidationError "Purl" errors) ∧
          retry_reply agent (summary_prompt summary) raw errors = inr raw' ∧
          field raw' "string" = Some (JStr s) ∧ PackageURL_from_string s = inr p) ∧
     (∀ errors raw',
        Purl.model_validate raw = inl (ValidationError "Purl" errors) →
        retry_reply agent (summary_prompt summary) raw errors = inr raw' →
        schema_error "Purl" (Purl.model_validate raw') →
        outcome = inl (UnexpectedModelBehavior default_retries))) ∧
  (∀ self cpe,
     let agent := CPEParser.purl_agent self in
     let outcome := (CPEParser.get_purl cpe self).1 in
     reply agent (cpe_prompt cpe) = inr raw →
     (∀ p, outcome = inr p →
        ∃ errors raw' s,
          Purl.model_validate raw = inl (ValidationError "Purl" errors) ∧
          retry_reply agent (cpe_prompt cpe) raw errors = inr raw' ∧
          field raw' "string" = Some (JStr s) ∧ PackageURL_from_string s = inr p) ∧
     (∀ errors raw',
        Purl.model_validate raw = inl (ValidationError "Purl" errors) →
        retry_reply agent (cpe_prompt cpe) raw errors = inr raw' →
        schema_error "Purl" (Purl.model_validate raw') →
        outcome = inl (UnexpectedModelBehavior default_retries))) ∧
  Purl.model_validate (JDict ∅)
  = inl (ValidationError "Purl" [{| loc := [Field "string"]; type := missing |}]).
Proof.
  intros Hbad. destruct (Purl_model_validate_schema_error raw Hbad) as [errors Hfail].
  split; [by exists errors|].
  assert (Hafter : ∀ (agent : Agent Purl.t) user_prompt,
            reply agent user_prompt = inr raw →
            let outcome := (result ← run_sync agent user_prompt;
                            extern (PackageURL_from_string (Purl.string (output result)))) in
            (∀ p, outcome = inr p →
               ∃ errors raw' s,
                 Purl.model_validate raw = inl (ValidationError "Purl" errors) ∧
                 retry_reply agent user_prompt raw errors = inr raw' ∧
                 field raw' "string" = Some (JStr s) ∧ PackageURL_from_string s = inr p) ∧
            (∀ errors raw',
               Purl.model_validate raw = inl (ValidationError "Purl" errors) →
               retry_reply agent user_prompt raw errors = inr raw' →
               schema_error "Purl" (Purl.model_validate raw') →
               outcome = inl (UnexpectedModelBehavior default_retries))).
  { intros agent user_prompt Hreply outcome. subst outcome.
    rewrite (run_sync_retry (schema := Purl_BaseModel)
               agent user_prompt raw "Purl" errors Hreply Hfail). split.
    - intros p. destruct (retry_reply agent user_prompt raw errors) as [x|raw'] eqn:Hretry;
        [discriminate|]. simpl.
      destruct (Purl.model_validate raw') as [[]|[s]] eqn:Hvalid'; try discriminate.
      simpl. intros Hp. apply Purl_model_validate_inr_iff in Hvalid' as [Hfield _].
      exists errors, raw', s. repeat split; try done.
      by destruct (PackageURL_from_string s); simplify_eq/=.
    - intros errors' raw' Hfail' Hretry [errors'' Hfail''].
      assert (errors' = errors) as -> by congruence.
      rewrite Hretry. simpl. by rewrite Hfail''. }
  split; [|split; [|reflexivity]].
  - intros self summary agent outcome Hreply. subst agent outcome.
    rewrite get_purl_eq. by apply Hafter.
  - intros self cpe agent outcome Hreply. subst agent outcome.
    rewrite CPEParser_get_purl_eq. by apply Hafter.
Qed.

Lemma purl_schema_rejects_witness :
  field (JDict ∅) "string" = None ∧
  Sample.get_purl (JDict ∅) "no package is named here"
  = inl (UnexpectedModelBehavior default_retries).
Proof.
  assert (Hmissing : field (JDict ∅) "string" = None) by reflexivity.
  split; [exact Hmissing|].
  apply (proj2 (proj1 (proj2 (purl_schema_rejects (libs := Sample.collaborators (JDict ∅))
                                (JDict ∅) (or_introl Hmissing)))
                  Sample.parser "no package is named here" eq_refl)
           [{| loc := [Field "string"]; type := missing |}] (JDict ∅)).
  - reflexivity.
  - reflexivity.
  - by eexists.
Defined.

(** C5. Schema B succeeds exactly on replies that carry a sequence of strings
    under both [affected_versions] and [fixed_versions], and then returns the
    two sequences as they are (empty ones included); a reply in which either
    field is missing or is not a sequence of strings fails with pydantic's
    validation error. *)
Theorem versions_schema_validation raw :
  (∀ affected fixed,
     string_sequence_at raw "affected_versions" affected →
     string_sequence_at raw "fixed_versions" fixed →
     Versions.model_validate raw
     = inr {| Versions.affected_versions := affected; Versions.fixed_versions := fixed |}) ∧
  ((¬ ∃ affected, string_sequence_at raw "affected_versions" affected) ∨
   (¬ ∃ fixed, string_sequence_at raw "fixed_versions" fixed) →
   schema_error "Versions" (Versions.model_validate raw)).
Proof.
  split.
  - intros affected fixed Ha Hf. by apply Versions_model_validate_inr_iff.
  - intros Hbad.
    destruct (Versions_model_validate_cases raw) as [[[a f] Hok]|]; [|done].
    apply Versions_model_validate_inr_iff in Hok as [Ha Hf].
    destruct Hbad as [Hbad|Hbad]; destruct Hbad; eauto.
Qed.

Lemma versions_schema_validation_witness :
  Versions.model_validate (Sample.versions_reply [">=1.2.3"; "<2.0.0"] [])
  = inr {| Versions.affected_versions := [">=1.2.3"; "<2.0.0"];
           Versions.fixed_versions := [] |} ∧
  schema_error "Versions"
    (Versions.model_validate (JDict {[ "affected_versions" := JList [JStr ">=1.2.3"] ]})).
Proof.
  split.
  - apply (proj1 (versions_schema_validation _)); vm_compute; reflexivity.
  - apply (proj2 (versions_schema_validation _)). right.
    intros [fixed Hfixed]. vm_compute in Hfixed. discriminate.
Defined.

(** C7, as the code has it. Neither schema rejects a reply for carrying a
    key that the schema does not declare: with the PURL reader of [Sample],
    schema A accepts a reply holding [string] and [confidence], and schema B
    accepts a reply holding its two fields and [confidence]. *)
Lemma extra_field_is_accepted :
  Purl.model_validate (libs := Sample.offline)
    (JDict (<["confidence" := JStr "high"]>
            {[ "string" := JStr "pkg:pypi/django@4.2.0" ]}))
  = inr {| Purl.string := "pkg:pypi/django@4.2.0" |} ∧
  Versions.model_validate
    (JDict (<["confidence" := JStr "high"]>
            (<["affected_versions" := JList [JStr "<2.0.0"]]>
             {[ "fixed_versions" := JList [JStr "2.0.0"] ]})))
  = inr {| Versions.affected_versions := ["<2.0.0"];
           Versions.fixed_versions := ["2.0.0"] |}.
Proof. split; vm_compute; reflexivity. Qed.

(** C7, amended. Each schema looks only at the fields it declares: adding to
    a reply any key other than [string] does not change what schema A
    returns or raises, and adding any key other than [affected_versions] and
    [fixed_versions] does not change what schema B returns or raises. *)
Theorem extra_fields_are_ignored {libs : Collaborators} (m : gmap string json) k v :
  (k ≠ "string" →
   Purl.model_validate (JDict (<[k:=v]> m)) = Purl.model_validate (JDict m)) ∧
  (k ≠ "affected_versions" → k ≠ "fixed_versions" →
   Versions.model_validate (JDict (<[k:=v]> m)) = Versions.model_validate (JDict m)).
Proof.
  split.
  - intros Hk. simpl. by rewrite required_insert_ne.
  - intros Ha Hf. simpl. by rewrite !required_insert_ne.
Qed.

Lemma extra_fields_are_ignored_witness :
  Purl.model_validate (libs := Sample.offline)
    (JDict (<["confidence" := JStr "high"]> {[ "string" := JStr "pkg:pypi/django@4.2.0" ]}))
  = Purl.model_validate (libs := Sample.offline)
      (JDict {[ "string" := JStr "pkg:pypi/django@4.2.0" ]}) ∧
  Versions.model_validate (JDict (<["confidence" := JStr "high"]> ∅))
  = Versions.model_validate (JDict ∅).
Proof.
  split.
  - apply (proj1 (extra_fields_are_ignored (libs := Sample.offline) _ _ _)).
    vm_compute. discriminate.
  - apply (proj2 (extra_fields_are_ignored (libs := Sample.offline) _ _ _));
      vm_compute; discriminate.
Defined.

(** C8, on the code. The literal ["Not Fixed"] gets no treatment of its own:
    it reaches the registered range parser as ["vers:" + eco + "/Not Fixed"]
    like any other fixed constraint.  A reply whose fixed constraints contain
    it makes [get_version_ranges] raise whenever that parser rejects the
    text, and for the reply that holds nothing else the outcome is the
    parser's verdict on that text. *)
Theorem not_fixed_goes_to_range_parser {libs : Collaborators} (eco : string)
    (range_class : RangeClass VersionRange) self summary raw versions :
  RANGE_CLASS_BY_SCHEMES !! eco = Some range_class →
  reply (VulnerabilitySummaryParser.versions_agent self) (summary_prompt summary) = inr raw →
  Versions.model_validate raw = inr versions →
  "Not Fixed" ∈ Versions.fixed_versions versions →
  let outcome := (VulnerabilitySummaryParser.get_version_ranges summary eco self).1 in
  (∀ x, rejects range_class eco "Not Fixed" x → ∃ e, outcome = inl e) ∧
  (Versions.affected_versions versions = [] →
   Versions.fixed_versions versions = ["Not Fixed"] →
   outcome = (r ← extern (from_string range_class (vers eco "Not Fixed"));
              mret ([], [r]))).
Proof.
  intros Hreg Hreply Hvalid Hin outcome. unfold outcome.
  rewrite (get_version_ranges_validated _ _ _ _ _ Hreply Hvalid). split.
  - intros x Hx.
    destruct (resolve_rejected eco range_class (Versions.fixed_versions versions) Hreg)
      as (c & x' & _ & _ & ->).
    { apply Exists_exists. exists "Not Fixed". eauto. }
    destruct (resolve eco (Versions.affected_versions versions)); simpl; eauto.
  - intros -> ->. rewrite resolve_nil, (resolve_registered _ _ _ Hreg). simpl.
    destruct (extern _); reflexivity.
Qed.

Lemma not_fixed_goes_to_range_parser_witness :
  rejects (libs := Sample.offline) Sample.PypiVersionRange "pypi" "Not Fixed"
    {| exc_type := "InvalidVersion"; exc_str := "vers:pypi/Not Fixed" |} ∧
  ∃ e, Sample.get_version_ranges (Sample.versions_reply [] ["Not Fixed"])
         "no fix is mentioned" "pypi" = inl e.
Proof.
  set (answer := Sample.versions_reply [] ["Not Fixed"]).
  assert (Hrejects : rejects (libs := Sample.offline) Sample.PypiVersionRange
                       "pypi" "Not Fixed"
                       {| exc_type := "InvalidVersion"; exc_str := "vers:pypi/Not Fixed" |})
    by (vm_compute; reflexivity).
  split; [exact Hrejects|].
  apply (proj1 (not_fixed_goes_to_range_parser (libs := Sample.collaborators answer)
                  "pypi" Sample.PypiVersionRange
                  Sample.parser
                  "no fix is mentioned" answer
                  {| Versions.affected_versions := [];
                     Versions.fixed_versions := ["Not Fixed"] |}
                  ltac:(vm_compute; reflexivity) eq_refl
                  ltac:(vm_compute; reflexivity) ltac:(apply list_elem_of_here))
           _ Hrejects).
Defined.

(** ** Instance state *)

Lemma read_only_ret {S A} (a : A) : read_only (S := S) (mret a).
Proof. intros self. reflexivity. Qed.

Lemma read_only_getattr {S A} (attr : S → A) : read_only (getattr attr).
Proof. intros self. reflexivity. Qed.

Lemma read_only_eval {S A} (r : result A) : read_only (S := S) (eval r).
Proof. intros self. reflexivity. Qed.

Lemma read_only_bind {S A B} (m : method S A) (f : A → method S B) :
  read_only m → (∀ a, read_only (f a)) → read_only (m ≫= f).
Proof.
  intros Hm Hf self. unfold mbind, method_bind. specialize (Hm self).
  destruct (m self) as [[e|a] self']; simpl in *; subst self'; [reflexivity|].
  apply Hf.
Qed.

Create HintDb read_only.
#[export] Hint Resolve read_only_ret read_only_getattr read_only_eval : read_only.
#[export] Hint Extern 1 (read_only (_ ≫= _)) =>
  apply read_only_bind; [|intros ?] : read_only.

(** C9. No facade method assigns to [self]: after [get_version_ranges] and
    after either [get_purl], whether it returned or raised, the instance has
    the [model], [purl_agent] and [versions_agent] it was constructed with, so
    a second call finds the instance the first call found. *)
Theorem facade_calls_leave_instance_unchanged {libs : Collaborators} :
  (∀ summary eco, read_only (VulnerabilitySummaryParser.get_version_ranges summary eco)) ∧
  (∀ summary, read_only (VulnerabilitySummaryParser.get_purl summary)) ∧
  (∀ cpe, read_only (CPEParser.get_purl cpe)) ∧
  (∀ self summary eco summary',
     VulnerabilitySummaryParser.get_purl summary'
       (VulnerabilitySummaryParser.get_version_ranges summary eco self).2
     = VulnerabilitySummaryParser.get_purl summary' self).
Proof.
  assert (Hranges : ∀ summary eco,
            read_only (VulnerabilitySummaryParser.get_version_ranges summary eco)).
  { intros summary eco. unfold VulnerabilitySummaryParser.get_version_ranges.
    auto 10 with read_only. }
  split; [exact Hranges|]. split; [|split].
  - intros summary. unfold VulnerabilitySummaryParser.get_purl. auto with read_only.
  - intros cpe. unfold CPEParser.get_purl. auto with read_only.
  - intros self summary eco summary'. by rewrite Hranges.
Qed.

(** * Further properties of the module *)

(** ** Comprehensions and resolution, continued *)

Lemma result_bind_inl_inv {A B} (f : A → result B) (m : result A) (e : exception) :
  (m ≫= f) = inl e → m = inl e ∨ ∃ a, m = inr a ∧ f a = inl e.
Proof. destruct m as [e'|a]; [intros [= ->]; by left | right; eauto]. Qed.

Lemma comprehension_app {A B} (f : A → result B) xs ys :
  comprehension f (xs ++ ys)
  = (xs' ← comprehension f xs; ys' ← comprehension f ys; mret (xs' ++ ys')).
Proof.
  induction xs as [|x xs IH]; simpl.
  - by destruct (comprehension f ys).
  - destruct (f x) as [e|y]; [reflexivity|]. simpl. rewrite IH.
    destruct (comprehension f xs) as [e|xs']; [reflexivity|]. simpl.
    by destruct (comprehension f ys).
Qed.

Section ResolutionOutcomes.
Context {libs : Collaborators}.
Implicit Types (eco c : string) (cs : list string).

(** Why a comprehension over the registry can fail. *)
Lemma resolve_inl_cases eco cs e :
  resolve eco cs = inl e →
  (RANGE_CLASS_BY_SCHEMES !! eco = None ∧ cs ≠ [] ∧ e = KeyError eco) ∨
  (∃ range_class c x,
     RANGE_CLASS_BY_SCHEMES !! eco = Some range_class ∧
     c ∈ cs ∧ rejects range_class eco c x ∧ e = External x).
Proof.
  intros Hfail. destruct (RANGE_CLASS_BY_SCHEMES !! eco) as [range_class|] eqn:Hreg.
  - right. destruct (resolve_inl_inv _ _ _ _ Hreg Hfail) as (c & x & ? & ? & ?).
    by exists range_class, c, x.
  - left. destruct cs as [|c cs]; [discriminate|].
    rewrite (resolve_unregistered _ _ _ Hreg) in Hfail. by simplify_eq.
Qed.

(** A comprehension over an unregistered ecosystem returns only for the
    empty list. *)
Lemma resolve_inr_unregistered eco cs rs :
  RANGE_CLASS_BY_SCHEMES !! eco = None → resolve eco cs = inr rs → cs = [] ∧ rs = [].
Proof.
  intros Hreg. destruct cs as [|c cs].
  - intros [= <-]. done.
  - by rewrite (resolve_unregistered _ _ _ Hreg).
Qed.

(** Once the reply is validated, the call fails exactly as one comprehension
    over the affected constraints followed by the fixed ones would. *)
Lemma get_version_ranges_fails_as_resolve self summary eco raw versions e :
  reply (VulnerabilitySummaryParser.versions_agent self) (summary_prompt summary) = inr raw →
  Versions.model_validate raw = inr versions →
  (VulnerabilitySummaryParser.get_version_ranges summary eco self).1 = inl e
  ↔ resolve eco (Versions.affected_versions versions ++ Versions.fixed_versions versions)
    = inl e.
Proof.
  intros Hreply Hvalid.
  rewrite (get_version_ranges_validated _ _ _ _ _ Hreply Hvalid).
  unfold resolve. rewrite comprehension_app.
  destruct (comprehension _ (Versions.affected_versions versions)); simpl;
    [split; congruence|].
  destruct (comprehension _ (Versions.fixed_versions versions)); simpl;
    unfold mret, result_ret; split; congruence.
Qed.
End ResolutionOutcomes.

Section FurtherResolution.
Context {libs : Collaborators}.
Implicit Types (eco c : string) (cs : list string).

Lemma resolve_length eco cs rs : resolve eco cs = inr rs → length rs = length cs.
Proof.
  intros Hrun. apply comprehension_inr_iff in Hrun.
  symmetry. by eapply Forall2_length.
Qed.

(** Schema B raises nothing but pydantic's validation error. *)
Lemma Versions_model_validate_raises raw e :
  Versions.model_validate raw = inl e → ∃ title errors, e = ValidationError title errors.
Proof.
  intros Hfail. destruct (Versions_model_validate_cases raw) as [[v Hok]|[errors Herr]].
  - congruence.
  - exists "Versions", errors. congruence.
Qed.

(** Once a received reply is validated, the call fails exactly as one
    comprehension over the affected constraints followed by the fixed ones
    would. *)
Lemma get_version_ranges_fails_as_resolve_received self summary eco raw versions e :
  received (VulnerabilitySummaryParser.versions_agent self) (summary_prompt summary) raw →
  Versions.model_validate raw = inr versions →
  (VulnerabilitySummaryParser.get_version_ranges summary eco self).1 = inl e
  ↔ resolve eco (Versions.affected_versions versions ++ Versions.fixed_versions versions)
    = inl e.
Proof.
  intros Hreceived Hvalid.
  rewrite (get_version_ranges_received _ _ _ _ _ Hreceived Hvalid).
  unfold resolve. rewrite comprehension_app.
  destruct (comprehension _ (Versions.affected_versions versions)); simpl;
    [split; congruence|].
  destruct (comprehension _ (Versions.fixed_versions versions)); simpl;
    unfold mret, result_ret; split; congruence.
Qed.

(** X1. Resolving a concatenation is resolving its two parts one after the
    other and concatenating the ranges: a failure in the first part wins,
    then a failure in the second part. *)
Theorem resolve_concatenation eco cs1 cs2 :
  resolve eco (cs1 ++ cs2)
  = (rs1 ← resolve eco cs1; rs2 ← resolve eco cs2; mret (rs1 ++ rs2)).
Proof. apply comprehension_app. Qed.

(** X2. A pair returned by [get_version_ranges] is always backed by a reply
    that the agent run received (the reply to the user prompt, or the reply to
    the retry prompt after a first reply that failed schema B): that reply
    carries two sequences of strings, the returned lists are as long as those
    sequences, under a registered ecosystem every returned range is the parse
    of ["vers:" + eco + "/" + c] for the constraint [c] at the same position,
    and under an unregistered ecosystem all four lists are empty. *)
Theorem get_version_ranges_sound self summary eco affected fixed :
  (VulnerabilitySummaryParser.get_version_ranges summary eco self).1
    = inr (affected, fixed) →
  ∃ raw cs_affected cs_fixed,
    received (VulnerabilitySummaryParser.versions_agent self) (summary_prompt summary) raw ∧
    string_sequence_at raw "affected_versions" cs_affected ∧
    string_sequence_at raw "fixed_versions" cs_fixed ∧
    length affected = length cs_affected ∧
    length fixed = length cs_fixed ∧
    (∀ range_class, RANGE_CLASS_BY_SCHEMES !! eco = Some range_class →
       Forall2 (λ c r, from_string range_class ("vers:" +:+ eco +:+ "/" +:+ c) = inr r)
               cs_affected affected ∧
       Forall2 (λ c r, from_string range_class ("vers:" +:+ eco +:+ "/" +:+ c) = inr r)
               cs_fixed fixed) ∧
    (RANGE_CLASS_BY_SCHEMES !! eco = None →
       cs_affected = [] ∧ cs_fixed = [] ∧ affected = [] ∧ fixed = []).
Proof.
  rewrite get_version_ranges_eq.
  destruct (run_sync _ _) as [e|[[cs_a cs_f]]] eqn:Hrun; [discriminate|]. simpl.
  apply run_sync_inr_inv in Hrun as (raw & Hreceived & Hvalid). simpl in Hvalid.
  destruct (resolve eco cs_a) as [e|a] eqn:Ha; [discriminate|]. simpl.
  destruct (resolve eco cs_f) as [e|f] eqn:Hf; [discriminate|]. simpl.
  intros [= <- <-].
  apply Versions_model_validate_inr_iff in Hvalid as [Hseq_a Hseq_f].
  exists raw, cs_a, cs_f. repeat split; try done.
  - by apply (resolve_length eco).
  - by apply (resolve_length eco).
  - by apply (resolve_inr_iff eco range_class).
  - by apply (resolve_inr_iff eco range_class).
  - by destruct (resolve_inr_unregistered eco cs_a a).
  - by destruct (resolve_inr_unregistered eco cs_f f).
  - by destruct (resolve_inr_unregistered eco cs_a a).
  - by destruct (resolve_inr_unregistered eco cs_f f).
Qed.

(** X3. Every exception of [get_version_ranges] has one of five causes: the
    provider failed on the user prompt or on the retry prompt (its exception
    comes out as it is); both the reply and the retry reply failed schema B
    (the agent's [UnexpectedModelBehavior]); the ecosystem is not registered
    while the validated reply holds a constraint ([KeyError] for the
    ecosystem); or the registered parser rejected one of the constraints (its
    exception). *)
Theorem get_version_ranges_failure_causes self summary eco e :
  (VulnerabilitySummaryParser.get_version_ranges summary eco self).1 = inl e →
  let agent := VulnerabilitySummaryParser.versions_agent self in
  (∃ x, provider_failed agent (summary_prompt summary) x ∧ e = External x) ∨
  (retries_exhausted agent (summary_prompt summary) ∧
   e = UnexpectedModelBehavior default_retries) ∨
  (∃ raw versions,
     received agent (summary_prompt summary) raw ∧
     Versions.model_validate raw = inr versions ∧
     let cs := Versions.affected_versions versions ++ Versions.fixed_versions versions in
     (RANGE_CLASS_BY_SCHEMES !! eco = None ∧ cs ≠ [] ∧ e = KeyError eco) ∨
     (∃ range_class c x,
        RANGE_CLASS_BY_SCHEMES !! eco = Some range_class ∧ c ∈ cs ∧
        from_string range_class ("vers:" +:+ eco +:+ "/" +:+ c) = inl x ∧
        e = External x)).
Proof.
  intros Hfail agent. subst agent.
  destruct (run_sync (VulnerabilitySummaryParser.versions_agent self)
              (summary_prompt summary)) as [e'|[versions]] eqn:Hrun.
  - rewrite get_version_ranges_eq, Hrun in Hfail. simpl in Hfail.
    injection Hfail as ->.
    destruct (run_sync_inl_inv (schema := Versions_BaseModel) _ _ _
                Versions_model_validate_raises Hrun) as [?|?];
      [by left | right; by left].
  - apply run_sync_inr_inv in Hrun as (raw & Hreceived & Hvalid). simpl in Hvalid.
    right. right. exists raw, versions. split; [done|]. split; [done|].
    apply (get_version_ranges_fails_as_resolve_received _ _ _ _ _ _ Hreceived Hvalid)
      in Hfail.
    by apply resolve_inl_cases.
Qed.

(** X4. Under a registered ecosystem the constraints are tried in the order
    affected, then fixed, and the first one the parser rejects decides the
    outcome: the call raises what the parser raised on it, whatever follows. *)
Theorem first_rejected_constraint_decides eco range_class self summary raw versions
    before c after x :
  RANGE_CLASS_BY_SCHEMES !! eco = Some range_class →
  reply (VulnerabilitySummaryParser.versions_agent self) (summary_prompt summary) = inr raw →
  Versions.model_validate raw = inr versions →
  Versions.affected_versions versions ++ Versions.fixed_versions versions
    = before ++ c :: after →
  Forall (λ c', ∃ r, parses range_class eco c' r) before →
  rejects range_class eco c x →
  (VulnerabilitySummaryParser.get_version_ranges summary eco self).1 = inl (External x).
Proof.
  intros Hreg Hreply Hvalid Hsplit Hbefore Hc.
  apply (get_version_ranges_fails_as_resolve _ _ _ _ _ _ Hreply Hvalid).
  rewrite Hsplit. by apply (resolve_first_rejected _ range_class).
Qed.

(** X5. A failure of the provider leaves each of the three facade methods as
    the exception the provider raised: nothing is retried, wrapped or
    replaced by a default, and neither the schema nor the registry is
    consulted. *)
Theorem provider_failure_propagates x :
  (∀ self summary eco,
     reply (VulnerabilitySummaryParser.versions_agent self) (summary_prompt summary)
       = inl x →
     (VulnerabilitySummaryParser.get_version_ranges summary eco self).1
     = inl (External x)) ∧
  (∀ self summary,
     reply (VulnerabilitySummaryParser.purl_agent self) (summary_prompt summary) = inl x →
     (VulnerabilitySummaryParser.get_purl summary self).1 = inl (External x)) ∧
  (∀ self cpe,
     reply (CPEParser.purl_agent self) (cpe_prompt cpe) = inl x →
     (CPEParser.get_purl cpe self).1 = inl (External x)).
Proof.
  split; [|split].
  - intros self summary eco Hreply.
    by rewrite get_version_ranges_eq, (run_sync_provider_failure _ _ _ Hreply).
  - intros self summary Hreply.
    by rewrite get_purl_eq, (run_sync_provider_failure _ _ _ Hreply).
  - intros self cpe Hreply.
    by rewrite CPEParser_get_purl_eq, (run_sync_provider_failure _ _ _ Hreply).
Qed.

(** X12. The reply is validated before the ecosystem is looked at: when the
    reply to the user prompt and the reply to the retry prompt both fail
    schema B, [get_version_ranges] raises the agent's
    [UnexpectedModelBehavior] for every ecosystem string, registered or not,
    and no constraint is parsed. *)
Theorem schema_failure_precedes_ecosystem_lookup self summary :
  retries_exhausted (VulnerabilitySummaryParser.versions_agent self)
                    (summary_prompt summary) →
  ∀ eco, (VulnerabilitySummaryParser.get_version_ranges summary eco self).1
         = inl (UnexpectedModelBehavior default_retries).
Proof.
  intros Hexhausted eco.
  by rewrite get_version_ranges_eq, (run_sync_retries_exhausted _ _ Hexhausted).
Qed.
End FurtherResolution.

Lemma get_version_ranges_sound_witness :
  Deployment.get_version_ranges
    (Deployment.first_then (inr (JDict ∅))
                           (inr (Sample.versions_reply [">=1.2.3"; "<2.0.0"] ["2.0.0"])))
    "fixed in 2.0.0" "pypi" = inr ([">=1.2.3"; "<2.0.0"], ["2.0.0"]) ∧
  ∃ raw cs_affected cs_fixed,
    string_sequence_at raw "affected_versions" cs_affected ∧
    string_sequence_at raw "fixed_versions" cs_fixed ∧
    length [">=1.2.3"; "<2.0.0"] = length cs_affected ∧
    length ["2.0.0"] = length cs_fixed.
Proof.
  set (endpoint := Deployment.first_then (inr (JDict ∅))
                     (inr (Sample.versions_reply [">=1.2.3"; "<2.0.0"] ["2.0.0"]))).
  assert (Hrun : (VulnerabilitySummaryParser.get_version_ranges
                    (libs := Deployment.collaborators Deployment.key_environ endpoint)
                    "fixed in 2.0.0" "pypi" Sample.parser).1
                 = inr ([">=1.2.3"; "<2.0.0"], ["2.0.0"]))
    by (vm_compute; reflexivity).
  split; [exact Hrun|].
  destruct (get_version_ranges_sound
              (libs := Deployment.collaborators Deployment.key_environ endpoint)
              Sample.parser "fixed in 2.0.0" "pypi" _ _ Hrun)
    as (raw & cs_a & cs_f & _ & Ha & Hf & Hla & Hlf & _).
  by exists raw, cs_a, cs_f.
Defined.

Lemma get_version_ranges_failure_causes_witness :
  Sample.get_version_ranges (JDict ∅) "fixed in 2.0.0" "pypi"
    = inl (UnexpectedModelBehavior default_retries) ∧
  retries_exhausted (libs := Sample.collaborators (JDict ∅))
    (VulnerabilitySummaryParser.versions_agent Sample.parser)
    (summary_prompt "fixed in 2.0.0").
Proof.
  assert (Hrun : (VulnerabilitySummaryParser.get_version_ranges
                    (libs := Sample.collaborators (JDict ∅))
                    "fixed in 2.0.0" "pypi" Sample.parser).1
                 = inl (UnexpectedModelBehavior default_retries))
    by (vm_compute; reflexivity).
  split; [exact Hrun|].
  destruct (get_version_ranges_failure_causes (libs := Sample.collaborators (JDict ∅))
              Sample.parser "fixed in 2.0.0" "pypi" _ Hrun)
    as [(x & _ & Hx)|[[Hexhausted _]|(raw & versions & _ & _ & Hcs)]].
  - discriminate Hx.
  - exact Hexhausted.
  - destruct Hcs as [(_ & _ & He)|(? & ? & ? & _ & _ & _ & He)]; discriminate He.
Defined.

Lemma first_rejected_constraint_decides_witness :
  Sample.get_version_ranges (Sample.versions_reply [">=1.0"; "oops"] ["nope"; "2.0"])
    "summary" "pypi"
  = inl (External {| exc_type := "InvalidVersion"; exc_str := "vers:pypi/oops" |}).
Proof.
  set (answer := Sample.versions_reply [">=1.0"; "oops"] ["nope"; "2.0"]).
  apply (first_rejected_constraint_decides (libs := Sample.collaborators answer)
           "pypi" Sample.PypiVersionRange Sample.parser "summary" answer
           {| Versions.affected_versions := [">=1.0"; "oops"];
              Versions.fixed_versions := ["nope"; "2.0"] |}
           [">=1.0"] "oops" ["nope"; "2.0"]).
  - vm_compute; reflexivity.
  - reflexivity.
  - vm_compute; reflexivity.
  - reflexivity.
  - repeat constructor. eexists. vm_compute; reflexivity.
  - vm_compute; reflexivity.
Defined.

Lemma provider_failure_propagates_witness :
  Deployment.get_version_ranges (Deployment.always (inl Deployment.timed_out))
    "summary" "pypi" = inl (External Deployment.timed_out) ∧
  Deployment.get_purl (Deployment.always (inl Deployment.timed_out)) "summary"
    = inl (External Deployment.timed_out) ∧
  Deployment.cpe_get_purl (Deployment.always (inl Deployment.timed_out))
    "cpe:2.3:a:djangoproject:django" = inl (External Deployment.timed_out).
Proof.
  pose proof (provider_failure_propagates
                (libs := Deployment.collaborators Deployment.key_environ
                           (Deployment.always (inl Deployment.timed_out)))
                Deployment.timed_out) as (Hranges & Hpurl & Hcpe).
  split; [|split].
  - apply (Hranges Sample.parser). reflexivity.
  - apply (Hpurl Sample.parser). reflexivity.
  - apply (Hcpe Sample.cpe_parser). reflexivity.
Defined.

Lemma schema_failure_precedes_ecosystem_lookup_witness :
  Sample.get_version_ranges (JDict {[ "affected_versions" := JList [JStr "<2.0.0"] ]})
    "summary" "cargo"
  = inl (UnexpectedModelBehavior default_retries).
Proof.
  set (answer := JDict {[ "affected_versions" := JList [JStr "<2.0.0"] ]}).
  apply (schema_failure_precedes_ecosystem_lookup (libs := Sample.collaborators answer)
           Sample.parser "summary").
  exists answer, "Versions", [{| loc := [Field "fixed_versions"]; type := missing |}],
         answer, "Versions", [{| loc := [Field "fixed_versions"]; type := missing |}].
  repeat split; vm_compute; reflexivity.
Defined.

(** ** Package identifiers, continued *)

Section FurtherPurl.
Context {libs : Collaborators}.

(** What a run of a PURL agent followed by the reader can give: a package
    exactly for a received reply whose string the reader accepts, and
    otherwise the exception of the run; the reader itself never raises
    there, because schema A has seen it accept the same string. *)
Lemma purl_run_outcome (agent : Agent Purl.t) user_prompt :
  let outcome := (result ← run_sync agent user_prompt;
                  extern (PackageURL_from_string (Purl.string (output result)))) in
  (∀ p, outcome = inr p
        ↔ ∃ raw s, received agent user_prompt raw ∧
                   field raw "string" = Some (JStr s) ∧
                   PackageURL_from_string s = inr p) ∧
  (∀ e, outcome = inl e →
        (∃ x, provider_failed agent user_prompt x ∧ e = External x) ∨
        (retries_exhausted agent user_prompt ∧
         e = UnexpectedModelBehavior default_retries)).
Proof.
  intros outcome. subst outcome. split.
  - intros p. split.
    + destruct (run_sync agent user_prompt) as [e|[purl]] eqn:Hrun; [discriminate|].
      apply run_sync_inr_inv in Hrun as (raw & Hreceived & Hvalid).
      apply Purl_model_validate_parsed in Hvalid as [Hfield [p' Hp']].
      simpl in *. rewrite Hp'. intros [= <-]. by exists raw, (Purl.string purl).
    + intros (raw & s & Hreceived & Hfield & Hp).
      assert (Hvalid : Purl.model_validate raw = inr {| Purl.string := s |})
        by (apply Purl_model_validate_inr_iff; eauto).
      rewrite (run_sync_received (schema := Purl_BaseModel) _ _ _ _ Hreceived Hvalid).
      simpl. by rewrite Hp.
  - intros e.
    destruct (run_sync agent user_prompt) as [e'|[purl]] eqn:Hrun.
    + intros [= <-].
      apply (run_sync_inl_inv (schema := Purl_BaseModel) _ _ _ Purl_model_validate_raises
               Hrun).
    + apply run_sync_inr_inv in Hrun as (raw & _ & Hvalid).
      apply Purl_model_validate_parsed in Hvalid as [_ [p Hp]].
      simpl in *. by rewrite Hp.
Qed.

(** X6. A package returned by [VulnerabilitySummaryParser.get_purl] is always
    the parse of the string that a received reply carries under [string]
    (the reply to the user prompt, or the reply to the retry prompt after a
    first reply that failed schema A); the method has no other way of
    producing one. *)
Theorem get_purl_sound self summary p :
  (VulnerabilitySummaryParser.get_purl summary self).1 = inr p →
  ∃ raw s,
    received (VulnerabilitySummaryParser.purl_agent self) (summary_prompt summary) raw ∧
    field raw "string" = Some (JStr s) ∧
    PackageURL_from_string s = inr p.
Proof. rewrite get_purl_eq. apply purl_run_outcome. Qed.

(** X7. [CPEParser.get_purl] returns a package exactly when the agent run
    receives a reply (to the CPE prompt, or to the retry prompt after a first
    reply that failed schema A) whose [string] is a text that the reader
    accepts, and the package is then the parse of that text. *)
Theorem CPEParser_get_purl_returns_iff self cpe p :
  (CPEParser.get_purl cpe self).1 = inr p
  ↔ ∃ raw s,
      received (CPEParser.purl_agent self) (cpe_prompt cpe) raw ∧
      field raw "string" = Some (JStr s) ∧
      PackageURL_from_string s = inr p.
Proof. rewrite CPEParser_get_purl_eq. apply purl_run_outcome. Qed.

(** X8. An exception of either [get_purl] is the provider's failure, on the
    first prompt or on the retry prompt, or the agent's
    [UnexpectedModelBehavior] after two replies that fail schema A; the call
    of [PackageURL.from_string] on the last line of the method never raises,
    because the validator has already parsed the same string. *)
Theorem get_purl_failure_causes e :
  (∀ self summary,
     (VulnerabilitySummaryParser.get_purl summary self).1 = inl e →
     let agent := VulnerabilitySummaryParser.purl_agent self in
     (∃ x, provider_failed agent (summary_prompt summary) x ∧ e = External x) ∨
     (retries_exhausted agent (summary_prompt summary) ∧
      e = UnexpectedModelBehavior default_retries)) ∧
  (∀ self cpe,
     (CPEParser.get_purl cpe self).1 = inl e →
     let agent := CPEParser.purl_agent self in
     (∃ x, provider_failed agent (cpe_prompt cpe) x ∧ e = External x) ∨
     (retries_exhausted agent (cpe_prompt cpe) ∧
      e = UnexpectedModelBehavior default_retries)).
Proof.
  split.
  - intros self summary. rewrite get_purl_eq. apply purl_run_outcome.
  - intros self cpe. rewrite CPEParser_get_purl_eq. apply purl_run_outcome.
Qed.

(** X9. [check_valid_purl] returns its argument unchanged exactly when the
    reader accepts it, and otherwise raises a [ValueError] whose message
    quotes the argument and the reader's own message, whatever class the
    reader raised; schema A reports that as one [value_error] at [string]. *)
Theorem invalid_purl_becomes_value_error v :
  (∀ p, PackageURL_from_string v = inr p → Purl.check_valid_purl v = inr v) ∧
  (∀ u, Purl.check_valid_purl v = inr u → u = v ∧ ∃ p, PackageURL_from_string v = inr p) ∧
  (∀ x, PackageURL_from_string v = inl x →
     let msg := "Invalid PURL '" +:+ v +:+ "': " +:+ exc_str x in
     Purl.check_valid_purl v = inl (ValueError msg) ∧
     ∀ raw, field raw "string" = Some (JStr v) →
       Purl.model_validate raw
       = inl (ValidationError "Purl"
                [{| loc := [Field "string"]; type := value_error msg |}])).
Proof.
  split; [|split].
  - intros p. apply check_valid_purl_accepts.
  - unfold Purl.check_valid_purl.
    destruct (PackageURL_from_string v) as [x|p]; [discriminate|].
    intros u [= <-]. eauto.
  - intros x Hx msg. split; [by apply check_valid_purl_rejects|].
    intros raw Hfield. destruct raw as [| | | | | |m]; try discriminate.
    simpl in Hfield. simpl. unfold required. rewrite Hfield. simpl.
    unfold after_validator. by rewrite (check_valid_purl_rejects _ _ Hx).
Qed.

(** X10. Both constructors choose the local model exactly when
    [OLLAMA_MODEL_NAME] and [OLLAMA_BASE_URL] are both set to non-empty
    strings, and then pass the URL as [openai_client] and no API key.  In
    every other case, an empty value included, they take [OPENAI_MODEL_NAME]
    and [OPENAI_API_KEY] from the environment: with a key the instance is
    built on that model, without one the provider raises [OpenAIError] and no
    instance is built.  Every agent of an instance talks to the instance's
    model. *)
Theorem constructors_select_model :
  let built chosen :=
    (∃ self, VulnerabilitySummaryParser.__init__ = inr self ∧
             VulnerabilitySummaryParser.model self = chosen ∧
             agent_model (VulnerabilitySummaryParser.purl_agent self) = chosen ∧
             agent_model (VulnerabilitySummaryParser.versions_agent self) = chosen) ∧
    (∃ self, CPEParser.__init__ = inr self ∧
             CPEParser.model self = chosen ∧
             agent_model (CPEParser.purl_agent self) = chosen) in
  let local_unset :=
    getenv "OLLAMA_MODEL_NAME" = None ∨ getenv "OLLAMA_MODEL_NAME" = Some "" ∨
    getenv "OLLAMA_BASE_URL" = None ∨ getenv "OLLAMA_BASE_URL" = Some "" in
  (∀ name url,
     getenv "OLLAMA_MODEL_NAME" = Some name → name ≠ "" →
     getenv "OLLAMA_BASE_URL" = Some url → url ≠ "" →
     built {| model_name := Some name;
              provider := {| openai_client := Some url; api_key := None |} |}) ∧
  (∀ key,
     local_unset → getenv "OPENAI_API_KEY" = Some key →
     built {| model_name := getenv "OPENAI_MODEL_NAME";
              provider := {| openai_client := None; api_key := Some key |} |}) ∧
  (local_unset → getenv "OPENAI_API_KEY" = None →
   VulnerabilitySummaryParser.__init__ = inl (External OpenAIError) ∧
   CPEParser.__init__ = inl (External OpenAIError)).
Proof.
  intros built local_unset. subst built local_unset.
  assert (Hbuilt : ∀ chosen, configured_model = inr chosen →
            (∃ self, VulnerabilitySummaryParser.__init__ = inr self ∧
               VulnerabilitySummaryParser.model self = chosen ∧
               agent_model (VulnerabilitySummaryParser.purl_agent self) = chosen ∧
               agent_model (VulnerabilitySummaryParser.versions_agent self) = chosen) ∧
            (∃ self, CPEParser.__init__ = inr self ∧
               CPEParser.model self = chosen ∧
               agent_model (CPEParser.purl_agent self) = chosen)).
  { intros chosen Hchosen.
    unfold VulnerabilitySummaryParser.__init__, CPEParser.__init__.
    rewrite Hchosen. split; eexists; (split; [reflexivity|]); done. }
  assert (Hhosted : getenv "OLLAMA_MODEL_NAME" = None ∨ getenv "OLLAMA_MODEL_NAME" = Some "" ∨
                    getenv "OLLAMA_BASE_URL" = None ∨ getenv "OLLAMA_BASE_URL" = Some "" →
            configured_model
            = (provider ← OpenAIProvider_init None OPENAI_API_KEY;
               mret {| model_name := OPENAI_MODEL_NAME; provider := provider |})).
  { unfold configured_model, OLLAMA_MODEL_NAME, OLLAMA_BASE_URL.
    intros [ -> | [ -> | [ -> | -> ] ] ]; simpl; try reflexivity;
      destruct (truthy (getenv "OLLAMA_MODEL_NAME")); reflexivity. }
  split; [|split].
  - intros name url Hname Hname_ne Hurl Hurl_ne. apply Hbuilt.
    unfold configured_model, OLLAMA_MODEL_NAME, OLLAMA_BASE_URL, OpenAIProvider_init.
    rewrite Hname, Hurl. simpl.
    destruct (String.eqb_spec name ""); [done|].
    destruct (String.eqb_spec url ""); done.
  - intros key Hlocal Hkey. apply Hbuilt. rewrite (Hhosted Hlocal).
    unfold OpenAIProvider_init, OPENAI_API_KEY, OPENAI_MODEL_NAME. by rewrite Hkey.
  - intros Hlocal Hkey.
    unfold VulnerabilitySummaryParser.__init__, CPEParser.__init__.
    rewrite (Hhosted Hlocal).
    unfold OpenAIProvider_init, OPENAI_API_KEY. by rewrite Hkey.
Qed.

(** X11. Each method reads only its own agent: [get_version_ranges] gives the
    same outcome on two instances with the same [versions_agent], and each
    [get_purl] the same outcome on two instances with the same [purl_agent],
    whatever their other fields hold. *)
Theorem methods_read_their_own_agent :
  (∀ self self' summary eco,
     VulnerabilitySummaryParser.versions_agent self
       = VulnerabilitySummaryParser.versions_agent self' →
     (VulnerabilitySummaryParser.get_version_ranges summary eco self).1
     = (VulnerabilitySummaryParser.get_version_ranges summary eco self').1) ∧
  (∀ self self' summary,
     VulnerabilitySummaryParser.purl_agent self
       = VulnerabilitySummaryParser.purl_agent self' →
     (VulnerabilitySummaryParser.get_purl summary self).1
     = (VulnerabilitySummaryParser.get_purl summary self').1) ∧
  (∀ self self' cpe,
     CPEParser.purl_agent self = CPEParser.purl_agent self' →
     (CPEParser.get_purl cpe self).1 = (CPEParser.get_purl cpe self').1).
Proof.
  split; [|split].
  - intros self self' summary eco Hagent. by rewrite !get_version_ranges_eq, Hagent.
  - intros self self' summary Hagent. by rewrite !get_purl_eq, Hagent.
  - intros self self' cpe Hagent. by rewrite !CPEParser_get_purl_eq, Hagent.
Qed.

(** X13. A first reply that fails the schema is not the end of a call: the
    agent sends one retry prompt carrying the validation errors, and when the
    reply to it passes the schema the call goes on with that reply, so
    [get_purl] returns the parse of its string and [get_version_ranges]
    resolves its constraints. *)
Theorem retry_reply_is_used self summary rejected title errors raw :
  (reply (VulnerabilitySummaryParser.purl_agent self) (summary_prompt summary)
     = inr rejected →
   Purl.model_validate rejected = inl (ValidationError title errors) →
   retry_reply (VulnerabilitySummaryParser.purl_agent self) (summary_prompt summary)
     rejected errors = inr raw →
   ∀ s p, field raw "string" = Some (JStr s) → PackageURL_from_string s = inr p →
          (VulnerabilitySummaryParser.get_purl summary self).1 = inr p) ∧
  (reply (VulnerabilitySummaryParser.versions_agent self) (summary_prompt summary)
     = inr rejected →
   Versions.model_validate rejected = inl (ValidationError title errors) →
   retry_reply (VulnerabilitySummaryParser.versions_agent self) (summary_prompt summary)
     rejected errors = inr raw →
   ∀ versions eco, Versions.model_validate raw = inr versions →
     (VulnerabilitySummaryParser.get_version_ranges summary eco self).1
     = (affected ← resolve eco (Versions.affected_versions versions);
        fixed ← resolve eco (Versions.fixed_versions versions);
        mret (affected, fixed))).
Proof.
  split.
  - intros Hreply Hrejected Hretry s p Hfield Hp.
    rewrite get_purl_eq. apply purl_run_outcome. exists raw, s.
    split; [|done]. right. by exists rejected, title, errors.
  - intros Hreply Hrejected Hretry versions eco Hvalid.
    apply (get_version_ranges_received _ _ _ raw); [|done].
    right. by exists rejected, title, errors.
Qed.
End FurtherPurl.

Lemma get_purl_sound_witness :
  Sample.get_purl (Sample.purl_reply "pkg:pypi/django@4.2.0") "Django is affected"
    = inr Sample.django ∧
  ∃ raw s, field raw "string" = Some (JStr s) ∧ Sample.purl_from_string s = inr Sample.django.
Proof.
  set (answer := Sample.purl_reply "pkg:pypi/django@4.2.0").
  assert (Hrun : (VulnerabilitySummaryParser.get_purl (libs := Sample.collaborators answer)
                    "Django is affected" Sample.parser).1 = inr Sample.django)
    by (vm_compute; reflexivity).
  split; [exact Hrun|].
  destruct (get_purl_sound (libs := Sample.collaborators answer)
              Sample.parser "Django is affected" Sample.django Hrun)
    as (raw & s & _ & Hfield & Hparse).
  by exists raw, s.
Defined.

Lemma CPEParser_get_purl_returns_iff_witness :
  Deployment.cpe_get_purl
    (Deployment.first_then (inr (JDict ∅))
                           (inr (Sample.purl_reply "pkg:pypi/django@4.2.0")))
    "cpe:2.3:a:djangoproject:django:4.2.0" = inr Sample.django.
Proof.
  set (answer := Sample.purl_reply "pkg:pypi/django@4.2.0").
  apply (proj2 (CPEParser_get_purl_returns_iff
                  (libs := Deployment.collaborators Deployment.key_environ
                             (Deployment.first_then (inr (JDict ∅)) (inr answer)))
                  Sample.cpe_parser "cpe:2.3:a:djangoproject:django:4.2.0" Sample.django)).
  exists answer, "pkg:pypi/django@4.2.0". split; [|split; vm_compute; reflexivity].
  right. exists (JDict ∅), "Purl", [{| loc := [Field "string"]; type := missing |}].
  repeat split; reflexivity.
Defined.

Lemma get_purl_failure_causes_witness :
  Deployment.get_purl (Deployment.first_then (inr (JDict ∅)) (inl Deployment.timed_out))
    "no package is named here" = inl (External Deployment.timed_out) ∧
  ∃ x, provider_failed
         (libs := Deployment.collaborators Deployment.key_environ
                    (Deployment.first_then (inr (JDict ∅)) (inl Deployment.timed_out)))
         (schema := Purl_BaseModel
                      (libs := Deployment.collaborators Deployment.key_environ
                                 (Deployment.first_then (inr (JDict ∅))
                                                        (inl Deployment.timed_out))))
         (VulnerabilitySummaryParser.purl_agent Sample.parser)
         (summary_prompt "no package is named here") x.
Proof.
  set (endpoint := Deployment.first_then (inr (JDict ∅)) (inl Deployment.timed_out)).
  assert (Hrun : (VulnerabilitySummaryParser.get_purl
                    (libs := Deployment.collaborators Deployment.key_environ endpoint)
                    "no package is named here" Sample.parser).1
                 = inl (External Deployment.timed_out))
    by (vm_compute; reflexivity).
  split; [exact Hrun|].
  destruct (proj1 (get_purl_failure_causes
                     (libs := Deployment.collaborators Deployment.key_environ endpoint) _)
              Sample.parser "no package is named here" Hrun)
    as [(x & Hx & _)|[_ He]].
  - by exists x.
  - discriminate He.
Defined.

Lemma invalid_purl_becomes_value_error_witness :
  Purl.check_valid_purl (libs := Sample.offline) "django 4.2"
    = inl (ValueError "Invalid PURL 'django 4.2': purl is missing the required type component") ∧
  Purl.check_valid_purl (libs := Sample.offline) "pkg:pypi/django@4.2.0"
    = inr "pkg:pypi/django@4.2.0".
Proof.
  split.
  - apply (proj1 (proj2 (proj2 (invalid_purl_becomes_value_error (libs := Sample.offline)
                                  "django 4.2")) _ ltac:(vm_compute; reflexivity))).
  - apply (proj1 (invalid_purl_becomes_value_error (libs := Sample.offline)
                    "pkg:pypi/django@4.2.0") Sample.django).
    vm_compute; reflexivity.
Defined.

Lemma constructors_select_model_witness :
  (∃ self,
     VulnerabilitySummaryParser.__init__
       (libs := Deployment.collaborators Deployment.local_environ
                  (Deployment.always (inr JNull))) = inr self ∧
     VulnerabilitySummaryParser.model self
     = {| model_name := Some "llama3";
          provider := {| openai_client := Some "http://localhost:11434/v1";
                         api_key := None |} |}) ∧
  (∃ self,
     CPEParser.__init__
       (libs := Deployment.collaborators Deployment.hosted_environ
                  (Deployment.always (inr JNull))) = inr self ∧
     CPEParser.model self
     = {| model_name := Some "gpt-4o";
          provider := {| openai_client := None; api_key := Some "sk-test" |} |}) ∧
  VulnerabilitySummaryParser.__init__
    (libs := Deployment.collaborators ∅ (Deployment.always (inr JNull)))
  = inl (External OpenAIError).
Proof.
  split; [|split].
  - destruct (proj1 (constructors_select_model
                       (libs := Deployment.collaborators Deployment.local_environ
                                  (Deployment.always (inr JNull))))
                "llama3" "http://localhost:11434/v1")
      as [(self & Hinit & Hmodel & _) _].
    + vm_compute; reflexivity.
    + discriminate.
    + vm_compute; reflexivity.
    + discriminate.
    + by exists self.
  - destruct (proj1 (proj2 (constructors_select_model
                       (libs := Deployment.collaborators Deployment.hosted_environ
                                  (Deployment.always (inr JNull)))))
                "sk-test")
      as [_ (self & Hinit & Hmodel & _)].
    + right. right. right. vm_compute; reflexivity.
    + vm_compute; reflexivity.
    + exists self. split; [exact Hinit|]. rewrite Hmodel. vm_compute; reflexivity.
  - apply (proj2 (proj2 (constructors_select_model
                       (libs := Deployment.collaborators ∅
                                  (Deployment.always (inr JNull)))))).
    + left. vm_compute; reflexivity.
    + vm_compute; reflexivity.
Defined.

Lemma methods_read_their_own_agent_witness :
  (VulnerabilitySummaryParser.get_version_ranges
     (libs := Sample.collaborators (Sample.versions_reply [] ["2.0.0"])) "summary" "pypi"
     Sample.parser).1
  = (VulnerabilitySummaryParser.get_version_ranges
       (libs := Sample.collaborators (Sample.versions_reply [] ["2.0.0"])) "summary" "pypi"
       {| VulnerabilitySummaryParser.model :=
            {| model_name := Some "another";
               provider := {| openai_client := None; api_key := None |} |};
          VulnerabilitySummaryParser.purl_agent := CPEParser.purl_agent Sample.cpe_parser;
          VulnerabilitySummaryParser.versions_agent :=
            VulnerabilitySummaryParser.versions_agent Sample.parser |}).1.
Proof.
  apply (proj1 (methods_read_their_own_agent
                  (libs := Sample.collaborators (Sample.versions_reply [] ["2.0.0"])))).
  reflexivity.
Defined.

Lemma retry_reply_is_used_witness :
  Deployment.get_purl
    (Deployment.first_then (inr (JDict ∅))
                           (inr (Sample.purl_reply "pkg:pypi/django@4.2.0")))
    "Django is affected" = inr Sample.django.
Proof.
  set (answer := Sample.purl_reply "pkg:pypi/django@4.2.0").
  pose proof (proj1 (retry_reply_is_used
                  (libs := Deployment.collaborators Deployment.key_environ
                             (Deployment.first_then (inr (JDict ∅)) (inr answer)))
                  Sample.parser "Django is affected" (JDict ∅) "Purl"
                  [{| loc := [Field "string"]; type := missing |}] answer)) as Hretry.
  apply (Hretry ltac:(reflexivity) ltac:(vm_compute; reflexivity) ltac:(reflexivity)
           "pkg:pypi/django@4.2.0" Sample.django);
    vm_compute; reflexivity.
Defined.
